(** * huey: the Invoker facade and the AsyncData result handle

    A shallow embedding of [huey/queue.py]: the [Invoker] methods that talk
    to the queue and to the result store ([_write], [_get], [_put],
    [enqueue], [execute], [revoke], [restore], [is_revoked]) and the
    [AsyncData] handle ([_get], [get], [revoke], [restore]).

    Python objects are mutable; the embedding threads them explicitly.  The
    invoker (with the backends it owns), the global state touched by user
    code and the wall clock form a [World]; every method is a computation in
    a state-and-exception monad over that world.  An [AsyncData] handle is a
    value that its methods return updated. *)

From Stdlib Require Import ZArith QArith Lqa.
From stdpp Require Import gmap strings list.

Open Scope string_scope.

(** ** Python values *)

(** The values that the modelled code pickles, compares and tests for
    truth.  A [datetime] is a point on an integer time line. *)
#[warnings="-register-all"]
Inductive pyval : Type :=
  | PyNone
  | PyBool (b : bool)
  | PyInt (z : Z)
  | PyStr (s : string)
  | PyDatetime (t : Z)
  | PyTuple (items : list pyval).

(** [x is None] *)
Definition is_None (v : pyval) : bool :=
  match v with PyNone => true | _ => false end.

(** Truth value of an object, as [if x:] takes it. *)
Definition truthy (v : pyval) : bool :=
  match v with
  | PyNone => false
  | PyBool b => b
  | PyInt z => negb (z =? 0)%Z
  | PyStr s => negb (String.eqb s "")
  | PyDatetime _ => true
  | PyTuple items => match items with [] => false | _ => true end
  end.

(** Modelled from the spec: [huey.utils.EmptyData] is not part of the
    sources.  It is the marker a store returns for a missing key, distinct
    from every stored value, and the initial content of a handle's cache.
    It is not a [pyval]. *)
Inductive maybe (A : Type) : Type :=
  | EmptyData
  | Data (a : A).
Arguments EmptyData {A}.
Arguments Data {A} a.

Definition is_EmptyData {A} (m : maybe A) : bool :=
  match m with EmptyData => true | Data _ => false end.

(** [pickle.dumps] / [pickle.loads].  The codec is taken by its round-trip
    law: a pickled blob is an opaque wrapper around the value it encodes. *)
Inductive blob : Type := Pickled (v : pyval).

Definition pickle_dumps (v : pyval) : blob := Pickled v.
Definition pickle_loads (b : blob) : pyval := match b with Pickled v => v end.

(** ** Exceptions *)

Inductive exn : Type :=
  | QueueException (msg : string)
  | QueueWriteException
  | QueueReadException
  | DataStoreGetException
  | DataStorePutException
  | DataStoreTimeout
  | TypeError (msg : string)
  | ValueError (msg : string)
  | NotImplementedError
  | UserException (msg : string).

(** [a, b = value]: a tuple of two items unpacks into them and a string of
    two characters into its characters; any other tuple or string has the
    wrong number of items ([ValueError]); [None], a number and a
    [datetime] cannot be iterated over ([TypeError]). *)
Definition unpack_pair (value : pyval) : pyval * pyval + exn :=
  match value with
  | PyTuple [a; b] => inl (a, b)
  | PyStr (String a (String b EmptyString)) =>
      inl (PyStr (String a EmptyString), PyStr (String b EmptyString))
  | PyTuple _ | PyStr _ => inr (ValueError "need 2 values to unpack")
  | PyNone | PyBool _ | PyInt _ | PyDatetime _ =>
      inr (TypeError "object is not iterable")
  end.

(** ** Backends *)

(** Every call made on a data store, in order.  The log is ghost state: no
    operation reads it; it is what "one lookup" and "nothing was written"
    are stated over. *)
Inductive store_op : Type :=
  | OpPut (key : string) (value : blob)
  | OpGet (key : string)
  | OpPeek (key : string).

(** Modelled from the spec: the ResultStore backend ([huey.backends]) is
    not part of the sources.  [put(key, bytes)], [get(key)] (destructive,
    get-and-remove), [peek(key)] (non-destructive); both reads answer
    [EmptyData] for a missing key.  The in-memory store never fails. *)
Record DataStore : Type := mkDataStore {
  results : gmap string blob;
  oplog : list store_op
}.

Definition found (o : option blob) : maybe blob :=
  match o with Some b => Data b | None => EmptyData end.

Definition DataStore_put (key : string) (value : blob) (s : DataStore) : DataStore :=
  {| results := <[key := value]> (results s);
     oplog := oplog s ++ [OpPut key value] |}.

Definition DataStore_get (key : string) (s : DataStore) : maybe blob * DataStore :=
  (found (results s !! key),
   {| results := delete key (results s);
      oplog := oplog s ++ [OpGet key] |}).

Definition DataStore_peek (key : string) (s : DataStore) : maybe blob * DataStore :=
  (found (results s !! key),
   {| results := results s;
      oplog := oplog s ++ [OpPeek key] |}).

(** Modelled from the spec: the Queue backend is not part of the sources.
    [write(bytes)] appends to a FIFO. *)
Record Queue : Type := mkQueue {
  blocking : bool;
  messages : list blob
}.

Definition Queue_write (msg : blob) (q : Queue) : Queue :=
  {| blocking := blocking q; messages := messages q ++ [msg] |}.

(** ** The state-and-exception monad *)

Inductive outcome (A : Type) : Type :=
  | Return (a : A)      (* the call returned [a] *)
  | Raise (e : exn)     (* the call raised [e] *)
  | Diverge.            (* a loop did not finish within its fuel *)
Arguments Return {A} a.
Arguments Raise {A} e.
Arguments Diverge {A}.

Section Embedding.

(** The state user code works on (the test suite's global [state] dict, a
    database, ...). *)
Context {ustate : Type}.

(** ** Commands *)

(** [QueueCommand].  [run] is the [execute] method a subclass overrides:
    user code, which returns a value or raises.  [periodic] is
    [isinstance(command, PeriodicQueueCommand)].  [type_name] is the
    registry's name of the class. *)
Record QueueCommand : Type := mkCommand {
  type_name : string;
  data : pyval;
  task_id : string;
  execute_time : option Z;
  retries : Z;
  retry_delay : Z;
  periodic : bool;
  run : ustate -> outcome pyval * ustate
}.

(** [self.revoke_id = 'r:%s' % self.task_id] *)
Definition revoke_id (command : QueueCommand) : string :=
  "r:" ++ task_id command.

(** What a caller may hand to [Invoker.execute]: a command, or any other
    object. *)
Inductive pyobj : Type :=
  | Command (command : QueueCommand)
  | Other (v : pyval).

(** [AsyncData.__init__]: the handle keeps its command and a cache,
    initially [EmptyData].  Its [invoker] attribute is a reference to the
    invoker of the world the methods run in. *)
Record AsyncData : Type := mkAsyncData {
  command : QueueCommand;
  _result : maybe pyval
}.

Definition AsyncData_init (command : QueueCommand) : AsyncData :=
  {| command := command; _result := EmptyData |}.

(** What [Invoker.enqueue] hands back: a plain value (the eager result, or
    [None] when the function falls off its end) or a handle. *)
Inductive enqueued : Type :=
  | Value (v : pyval)
  | Handle (h : AsyncData).

(** ** The world *)

(** [Invoker.__init__]: the queue, the optional stores and the two policy
    flags.  A store that was not configured is [None]; a configured backend
    object is true in [if self.result_store:].  The result store and the
    task store are two objects, as in the test suite. *)
Record Invoker : Type := mkInvoker {
  queue : Queue;
  result_store : option DataStore;
  task_store : option DataStore;
  store_none : bool;
  always_eager : bool
}.

Record World : Type := mkWorld {
  invoker : Invoker;
  user : ustate;
  clock : Q             (* what [time.time()] reads *)
}.

Definition M (A : Type) : Type := World -> outcome A * World.

Definition ret {A} (a : A) : M A := fun w => (Return a, w).

Definition raise {A} (e : exn) : M A := fun w => (Raise e, w).

Definition bind {A B} (m : M A) (k : A -> M B) : M B :=
  fun w =>
    match m w with
    | (Return a, w') => k a w'
    | (Raise e, w') => (Raise e, w')
    | (Diverge, w') => (Diverge, w')
    end.

Definition self_invoker : M Invoker := fun w => (Return (invoker w), w).

(** Assignments through the references the invoker holds: the queue and
    the result store are mutated in place. *)
Definition update_queue (q : Queue) (w : World) : World :=
  let i := invoker w in
  {| invoker := {| queue := q; result_store := result_store i;
                   task_store := task_store i; store_none := store_none i;
                   always_eager := always_eager i |};
     user := user w; clock := clock w |}.

Definition update_result_store (s : DataStore) (w : World) : World :=
  let i := invoker w in
  {| invoker := {| queue := queue i; result_store := Some s;
                   task_store := task_store i; store_none := store_none i;
                   always_eager := always_eager i |};
     user := user w; clock := clock w |}.

Definition update_user (u : ustate) (w : World) : World :=
  {| invoker := invoker w; user := u; clock := clock w |}.

Definition set_queue (q : Queue) : M unit :=
  fun w => (Return tt, update_queue q w).

Definition set_result_store (s : DataStore) : M unit :=
  fun w => (Return tt, update_result_store s w).

(** [command.execute()]: user code runs on the user state. *)
Definition command_execute (command : QueueCommand) : M pyval :=
  fun w =>
    let '(o, u) := run command (user w) in
    (o, update_user u w).

(** [time.time()] and [time.sleep(d)]. *)
Definition time_time : M Q := fun w => (Return (clock w), w).

Definition diverge {A} : M A := fun w => (Diverge, w).

(** Modelled from the spec: [huey.utils.wrap_exception] is not part of the
    sources.  Called in an [except] block, it raises the given class in
    place of the exception being handled. *)
Definition wrap_exception {A} (new_exc_class : exn) : M A := raise new_exc_class.

Definition time_sleep (d : Q) : M unit :=
  fun w => (Return tt,
            {| invoker := invoker w; user := user w; clock := clock w + d |}).

End Embedding.

Arguments QueueCommand : clear implicits.
Arguments pyobj : clear implicits.
Arguments World : clear implicits.
Arguments AsyncData : clear implicits.
Arguments enqueued : clear implicits.
Arguments M : clear implicits.

Declare Scope py_scope.
Delimit Scope py_scope with py.
Notation "'let*' x ':=' m 'in' k" := (bind m (fun x => k))
  (at level 10, x name, m at level 100, k at level 200) : py_scope.
Notation "'let*' ' p ':=' m 'in' k" := (bind m (fun p => k))
  (at level 10, p strict pattern, m at level 100, k at level 200) : py_scope.
Notation "'do' m 'then' k" := (bind m (fun _ => k))
  (at level 10, m at level 100, k at level 200) : py_scope.

Section Methods.

Context {ustate : Type}.
Local Open Scope py_scope.

Local Abbreviation Cmd := (QueueCommand ustate).
Local Abbreviation Act := (M ustate).

(** Modelled from the spec: [registry.get_message_for_command] lives in
    [huey.registry], which is not part of the sources.  The message is the
    encoded tuple [(type_name, task_id, payload, execute_time, retries,
    retry_delay)]. *)
Definition get_message_for_command (command : Cmd) : blob :=
  pickle_dumps
    (PyTuple [PyStr (type_name command); PyStr (task_id command); data command;
              match execute_time command with
              | Some t => PyDatetime t
              | None => PyNone
              end;
              PyInt (retries command); PyInt (retry_delay command)]).

(** ** Invoker *)

(** [Invoker._write]: the in-memory queue accepts every message. *)
Definition Invoker__write (msg : blob) : Act unit :=
  let* self := self_invoker in
  set_queue (Queue_write msg (queue self)).

(** [Invoker._get].  Without a result store the attribute access on [None]
    raises inside the [try], and the bare [except] wraps it. *)
Definition Invoker__get (key : string) (peek : bool) : Act (maybe blob) :=
  let* self := self_invoker in
  match result_store self with
  | None => wrap_exception DataStoreGetException
  | Some store =>
      let '(res, store') :=
        if peek then DataStore_peek key store else DataStore_get key store in
      do set_result_store store' then
      ret res
  end.

(** [Invoker._put] *)
Definition Invoker__put (key : string) (value : blob) : Act unit :=
  let* self := self_invoker in
  match result_store self with
  | None => wrap_exception DataStorePutException
  | Some store => set_result_store (DataStore_put key value store)
  end.

(** [Invoker.execute] *)
Definition Invoker_execute (obj : pyobj ustate) : Act pyval :=
  match obj with
  | Other _ => raise (TypeError "Unknown object")
  | Command command =>
      let* self := self_invoker in
      let* result := command_execute command in
      if is_None result && negb (store_none self) then
        ret PyNone
      else
        do (if bool_decide (is_Some (result_store self)) && negb (periodic command)
            then Invoker__put (task_id command) (pickle_dumps result)
            else ret tt) then
        ret result
  end.

(** The pair a revoke record holds. *)
Definition revoke_record (revoke_until : option Z) (revoke_once : bool) : pyval :=
  PyTuple [match revoke_until with Some t => PyDatetime t | None => PyNone end;
           PyBool revoke_once].

(** [Invoker.revoke] *)
Definition Invoker_revoke (command : Cmd) (revoke_until : option Z)
    (revoke_once : bool) : Act unit :=
  let* self := self_invoker in
  if negb (bool_decide (is_Some (task_store self))) then
    raise (QueueException "A DataStore is required to revoke commands")
  else
    let serialized := pickle_dumps (revoke_record revoke_until revoke_once) in
    Invoker__put (revoke_id command) serialized.

(** [Invoker.restore]: simply get and delete if there. *)
Definition Invoker_restore (command : Cmd) : Act unit :=
  do Invoker__get (revoke_id command) false then
  ret tt.

(** [revoke_until > dt].  A [datetime] orders against a [datetime] only;
    against anything else, [None] included, the comparison raises
    [TypeError]. *)
Definition datetime_gt (revoke_until : pyval) (dt : option Z) : Act bool :=
  match revoke_until, dt with
  | PyDatetime t, Some now => ret (now <? t)%Z
  | _, _ => raise (TypeError "can't compare datetime")
  end.

(** [Invoker.is_revoked] *)
Definition Invoker_is_revoked (command : Cmd) (dt : option Z) (preserve : bool)
    : Act bool :=
  let* self := self_invoker in
  if negb (bool_decide (is_Some (result_store self))) then
    ret false
  else
    let* res := Invoker__get (revoke_id command) true in
    match res with
    | EmptyData => ret false
    | Data bytes =>
        match unpack_pair (pickle_loads bytes) with
        | inl (revoke_until, revoke_once) =>
            if truthy revoke_once then
              do (if negb preserve then Invoker_restore command else ret tt) then
              ret true
            else if is_None revoke_until then ret true
            else datetime_gt revoke_until dt
        | inr e => raise e
        end
    end.

(** [Invoker.enqueue] *)
Definition Invoker_enqueue (command : Cmd) : Act (enqueued ustate) :=
  let* self := self_invoker in
  if always_eager self then
    let* v := command_execute command in
    ret (Value v)
  else
    do Invoker__write (get_message_for_command command) then
    if bool_decide (is_Some (result_store self)) then
      ret (Handle (AsyncData_init command))
    else
      ret (Value PyNone).

(** ** AsyncData *)

Local Abbreviation Hnd := (AsyncData ustate).

(** [AsyncData._get]: the answer, and the handle with its cache as the call
    leaves it. *)
Definition AsyncData__get (self : Hnd) : Act (maybe pyval * Hnd) :=
  let task_id := task_id (command self) in
  if is_EmptyData (_result self) then
    let* res := Invoker__get task_id false in
    match res with
    | Data bytes =>
        let self' := {| command := command self;
                        _result := Data (pickle_loads bytes) |} in
        ret (_result self', self')
    | EmptyData => ret (EmptyData, self)
    end
  else
    ret (_result self, self).

(** [AsyncData.revoke] and [AsyncData.restore] *)
Definition AsyncData_revoke (self : Hnd) : Act unit :=
  Invoker_revoke (command self) None false.

Definition AsyncData_restore (self : Hnd) : Act unit :=
  Invoker_restore (command self).

(** [if timeout and ...]: [None] and [0] are false. *)
Definition timeout_set (timeout : option Q) : bool :=
  match timeout with
  | Some t => negb (Qeq_bool t 0)
  | None => false
  end.

Definition timeout_value (timeout : option Q) : Q :=
  match timeout with Some t => t | None => 0 end.

(** The [while self._result is EmptyData] loop of a blocking [get].  The
    interpreter's floats are idealised as rationals.  [fuel] bounds the
    number of iterations; a loop that needs more is [Diverge]. *)
Fixpoint get_loop (fuel : nat) (timeout : option Q) (backoff max_delay : Q)
    (revoke_on_timeout : bool) (start delay : Q) (self : Hnd)
    : Act (maybe pyval * Hnd) :=
  if is_EmptyData (_result self) then
    match fuel with
    | O => diverge
    | S fuel' =>
        let* now := time_time in
        if timeout_set timeout && Qle_bool (timeout_value timeout) (now - start) then
          do (if revoke_on_timeout then AsyncData_revoke self else ret tt) then
          raise DataStoreTimeout
        else
          let delay := if Qle_bool delay max_delay then delay else max_delay in
          let* ' (res, self') := AsyncData__get self in
          if is_EmptyData res then
            do time_sleep delay then
            get_loop fuel' timeout backoff max_delay revoke_on_timeout
              start (delay * backoff) self'
          else
            get_loop fuel' timeout backoff max_delay revoke_on_timeout
              start delay self'
    end
  else
    ret (_result self, self).

(** [AsyncData.get].  A non-blocking call that finds nothing falls off the
    end of the function, which in Python returns [None]. *)
Definition AsyncData_get (fuel : nat) (blocking : bool) (timeout : option Q)
    (backoff max_delay : Q) (revoke_on_timeout : bool) (self : Hnd)
    : Act (maybe pyval * Hnd) :=
  if negb blocking then
    let* ' (res, self') := AsyncData__get self in
    if negb (is_EmptyData res) then
      ret (res, self')
    else
      ret (Data PyNone, self')
  else
    let* start := time_time in
    get_loop fuel timeout backoff max_delay revoke_on_timeout start (1 # 10) self.

End Methods.

(** ** Drivers *)

Section Drivers.

Context {ustate : Type}.
Local Open Scope py_scope.

(** A consumer that asks [is_revoked] for the same command once per entry
    of [dts], one call after the other. *)
Fixpoint is_revoked_each (command : QueueCommand ustate) (dts : list (option Z))
    (preserve : bool) : M ustate (list bool) :=
  match dts with
  | [] => ret []
  | dt :: rest =>
      let* b := Invoker_is_revoked command dt preserve in
      let* bs := is_revoked_each command rest preserve in
      ret (b :: bs)
  end.

(** The world left behind by a series of [revoke] calls, whether they
    return or raise. *)
Fixpoint after_revokes (calls : list (QueueCommand ustate * option Z * bool))
    (w : World ustate) : World ustate :=
  match calls with
  | [] => w
  | (command, revoke_until, revoke_once) :: rest =>
      after_revokes rest (snd (Invoker_revoke command revoke_until revoke_once w))
  end.

(** One [get] call: its arguments, and the world it finds (the store may
    have been changed by anyone since the previous call). *)
Record get_call : Type := mkGetCall {
  call_fuel : nat;
  call_blocking : bool;
  call_timeout : option Q;
  call_backoff : Q;
  call_max_delay : Q;
  call_revoke_on_timeout : bool;
  call_world : World ustate
}.

(** A series of [get] calls on one handle: what each call answered and the
    world it left. *)
Fixpoint get_each (calls : list get_call) (self : AsyncData ustate)
    : list (outcome (maybe pyval) * World ustate) :=
  match calls with
  | [] => []
  | c :: rest =>
      match AsyncData_get (call_fuel c) (call_blocking c) (call_timeout c)
              (call_backoff c) (call_max_delay c) (call_revoke_on_timeout c)
              self (call_world c) with
      | (Return (res, self'), w') => (Return res, w') :: get_each rest self'
      | (Raise e, w') => (Raise e, w') :: get_each rest self
      | (Diverge, w') => [(Diverge, w')]
      end
  end.

End Drivers.

Arguments get_call : clear implicits.

(** ** Fixtures: the tasks and backends of the consumer test suite *)

Module Fixtures.

(** The suite's global [state] dict. *)
Abbreviation state := (gmap string pyval).

(** [modify_state(k, v)]: [state[k] = v; return v]. *)
Definition modify_state (id k v : string) : QueueCommand state :=
  {| type_name := "queuecmd_modify_state";
     data := PyTuple [PyStr k; PyStr v];
     task_id := id;
     execute_time := None;
     retries := 0;
     retry_delay := 0;
     periodic := false;
     run := fun st => (Return (PyStr v), <[k := PyStr v]> st) |}.

(** [every_hour()]: the periodic task [state['p'] = 'y'], which returns
    nothing; its id is its type name. *)
Definition every_hour : QueueCommand state :=
  {| type_name := "queuecmd_every_hour";
     data := PyNone;
     task_id := "queuecmd_every_hour";
     execute_time := None;
     retries := 0;
     retry_delay := 0;
     periodic := true;
     run := fun st => (Return PyNone, <["p" := PyStr "y"]> st) |}.

Definition empty_store : DataStore := {| results := ∅; oplog := [] |}.

Definition empty_queue : Queue := {| blocking := false; messages := [] |}.

Definition world_of (i : Invoker) : World state :=
  {| invoker := i; user := ∅; clock := 0 |}.

(** [Invoker(queue, result_store, task_store)] as the suite builds it. *)
Definition test_world : World state :=
  world_of {| queue := empty_queue; result_store := Some empty_store;
              task_store := Some empty_store; store_none := false;
              always_eager := false |}.

(** [Invoker(queue, result_store)]: no task store. *)
Definition result_store_only : World state :=
  world_of {| queue := empty_queue; result_store := Some empty_store;
              task_store := None; store_none := false;
              always_eager := false |}.

(** [Invoker(queue, task_store=...)]: no result store. *)
Definition task_store_only : World state :=
  world_of {| queue := empty_queue; result_store := None;
              task_store := Some empty_store; store_none := false;
              always_eager := false |}.

(** [Invoker(queue, result_store, task_store, always_eager=True,
    store_none=True)] *)
Definition eager_world : World state :=
  world_of {| queue := empty_queue; result_store := Some empty_store;
              task_store := Some empty_store; store_none := true;
              always_eager := true |}.

(** A result store in which task [t1] has returned [None] (with
    [store_none] on). *)
Definition null_result_world : World state :=
  world_of {| queue := empty_queue;
              result_store :=
                Some {| results := {["t1" := pickle_dumps PyNone]}; oplog := [] |};
              task_store := Some empty_store; store_none := true;
              always_eager := false |}.

Definition t1 : QueueCommand state := modify_state "t1" "k" "v".

(** [modify_state('k', 'v').revoke()] *)
Definition revoked_world : World state :=
  snd (Invoker_revoke t1 None false test_world).

(** [every_hour.revoke(revoke_once=True)] *)
Definition revoked_once_world : World state :=
  snd (Invoker_revoke every_hour None true test_world).

(** The world after a worker has executed [modify_state('k', 'v')]. *)
Definition finished_world : World state :=
  snd (Invoker_execute (Command t1) test_world).

(** [every_hour.revoke(revoke_until=T)] with [T = 3600]. *)
Definition revoked_until_world : World state :=
  snd (Invoker_revoke every_hour (Some 3600%Z) false test_world).

(** The result store of [revoked_once_world]. *)
Definition once_store : DataStore :=
  {| results := {[revoke_id every_hour := pickle_dumps (revoke_record None true)]};
     oplog := [OpPut (revoke_id every_hour)
                 (pickle_dumps (revoke_record None true))] |}.

(** The handle [enqueue] returns for [t1], and the same handle once it has
    fetched the result. *)
Definition fresh_handle : AsyncData state := AsyncData_init t1.

Definition fetched_handle : AsyncData state :=
  {| command := t1; _result := Data (PyStr "v") |}.

(** [handle.get()] with the default arguments. *)
Definition poll (self : AsyncData state) : M state (maybe pyval * AsyncData state) :=
  AsyncData_get 0 false None (115 # 100) 1 false self.

(** A result store in which the key of [t1]'s revoke record holds
    something [revoke] did not write. *)
Definition foreign_record_world (value : pyval) : World state :=
  world_of {| queue := empty_queue;
              result_store :=
                Some {| results := {[revoke_id t1 := pickle_dumps value]};
                        oplog := [] |};
              task_store := Some empty_store; store_none := false;
              always_eager := false |}.

(** The calls of a client that polls, then blocks, then polls again while
    the store is emptied and refilled under it. *)
Definition polls : list (get_call state) :=
  [ {| call_fuel := 0; call_blocking := false; call_timeout := None;
       call_backoff := 115 # 100; call_max_delay := 1;
       call_revoke_on_timeout := false; call_world := test_world |};
    {| call_fuel := 0; call_blocking := true; call_timeout := Some (1 # 2);
       call_backoff := 115 # 100; call_max_delay := 1;
       call_revoke_on_timeout := true; call_world := null_result_world |};
    {| call_fuel := 3; call_blocking := false; call_timeout := None;
       call_backoff := 2; call_max_delay := 5;
       call_revoke_on_timeout := false; call_world := task_store_only |} ].

End Fixtures.

(** ** Observations on a world *)

Section Observations.

Context {ustate : Type}.

(** The blob the result store holds under [key], if there is a store and
    it has one. *)
Definition stored (w : World ustate) (key : string) : option blob :=
  match result_store (invoker w) with
  | Some rs => results rs !! key
  | None => None
  end.

(** The calls the result store has received so far. *)
Definition store_log (w : World ustate) : list store_op :=
  match result_store (invoker w) with
  | Some rs => oplog rs
  | None => []
  end.

(** The [revoke_once] component of a stored revoke record, as
    [is_revoked] tests it. *)
Definition once_flag (b : blob) : bool :=
  match unpack_pair (pickle_loads b) with
  | inl (_, revoke_once) => truthy revoke_once
  | inr _ => false
  end.

(** What a method answered, without the handle it returns next to it. *)
Definition answer {A B : Type} (r : outcome (A * B)) : outcome A :=
  match r with
  | Return (a, _) => Return a
  | Raise e => Raise e
  | Diverge => Diverge
  end.

End Observations.

(** The store after [peek(key)]: same records, one more log entry. *)
Definition peeked (key : string) (rs : DataStore) : DataStore :=
  snd (DataStore_peek key rs).

(** The store after [peek(key)] followed by [get(key)]. *)
Definition consumed (key : string) (rs : DataStore) : DataStore :=
  snd (DataStore_get key (peeked key rs)).

(** * The rest of queue.py: reading the queue, the schedule, commands *)

(** Modelled from the spec: the Queue backend is not part of the sources.
    [read()] takes the oldest message and answers [None] on an empty
    queue (the in-memory queue never blocks); [flush()] drops every
    message. *)
Definition Queue_read (q : Queue) : option blob * Queue :=
  match messages q with
  | [] => (None, q)
  | msg :: rest => (Some msg, {| blocking := blocking q; messages := rest |})
  end.

Definition Queue_flush (q : Queue) : Queue :=
  {| blocking := blocking q; messages := [] |}.

Section Consumer.

Context {ustate : Type}.
Local Open Scope py_scope.

Local Abbreviation Cmd := (QueueCommand ustate).
Local Abbreviation Act := (M ustate).

(** Modelled from the spec: [registry.get_command_for_message] lives in
    [huey.registry], which is not part of the sources.  It rebuilds the
    command of a message, or fails for a type that is not registered; the
    failure is a [QueueException] with the given text. *)
Variable get_command_for_message : blob -> Cmd + string.

(** [Invoker._read]: the in-memory queue never fails. *)
Definition Invoker__read : Act (option blob) :=
  let* self := self_invoker in
  let '(msg, q) := Queue_read (queue self) in
  do set_queue q then
  ret msg.

(** [Invoker.dequeue].  A message is a pickle, never the empty string, so
    [if message:] holds for every message read; the function falls off its
    end, answering [None], when the queue was empty. *)
Definition Invoker_dequeue : Act (option Cmd) :=
  let* message := Invoker__read in
  match message with
  | Some msg =>
      match get_command_for_message msg with
      | inl command => ret (Some command)
      | inr text => raise (QueueException text)
      end
  | None => ret None
  end.

(** What [dequeue] makes of a message it has read. *)
Definition decoded (msg : blob) : outcome (option Cmd) :=
  match get_command_for_message msg with
  | inl command => Return (Some command)
  | inr text => Raise (QueueException text)
  end.

(** [Invoker.flush] *)
Definition Invoker_flush : Act unit :=
  let* self := self_invoker in
  set_queue (Queue_flush (queue self)).

(** ** CommandSchedule *)

(** [CommandSchedule.__init__]: the key name and the dict from task ids to
    commands.  The [invoker] attribute is the invoker of the world. *)
Record CommandSchedule : Type := mkSchedule {
  key_name : string;
  _schedule : gmap string Cmd
}.

Definition CommandSchedule_init (key_name : string) : CommandSchedule :=
  {| key_name := key_name; _schedule := ∅ |}.

(** [CommandSchedule.__contains__] *)
Definition CommandSchedule_contains (self : CommandSchedule) (task_id : string) : bool :=
  bool_decide (is_Some (_schedule self !! task_id)).

(** [CommandSchedule.is_pending] *)
Definition CommandSchedule_is_pending (self : CommandSchedule) (cmd : Cmd) : bool :=
  bool_decide (is_Some (_schedule self !! task_id cmd)).

(** [CommandSchedule.add] *)
Definition CommandSchedule_add (self : CommandSchedule) (cmd : Cmd) : CommandSchedule :=
  if negb (CommandSchedule_is_pending self cmd) then
    {| key_name := key_name self;
       _schedule := <[task_id cmd := cmd]> (_schedule self) |}
  else self.

(** [CommandSchedule.remove] *)
Definition CommandSchedule_remove (self : CommandSchedule) (cmd : Cmd) : CommandSchedule :=
  if CommandSchedule_is_pending self cmd then
    {| key_name := key_name self;
       _schedule := delete (task_id cmd) (_schedule self) |}
  else self.

(** [CommandSchedule.commands]: the values of the dict, in no particular
    order. *)
Definition CommandSchedule_commands (self : CommandSchedule) : list Cmd :=
  map snd (map_to_list (_schedule self)).

(** [CommandSchedule.load_commands]: a message the registry rejects with
    [QueueException] is passed over. *)
Fixpoint CommandSchedule_load_commands (self : CommandSchedule) (messages : list blob)
    : CommandSchedule :=
  match messages with
  | [] => self
  | cmd_string :: rest =>
      match get_command_for_message cmd_string with
      | inl cmd_obj =>
          CommandSchedule_load_commands (CommandSchedule_add self cmd_obj) rest
      | inr _ => CommandSchedule_load_commands self rest
      end
  end.

(** The first command with the given id that a list of messages decodes
    to, if there is one. *)
Fixpoint first_with_id (id : string) (messages : list blob) : option Cmd :=
  match messages with
  | [] => None
  | cmd_string :: rest =>
      match get_command_for_message cmd_string with
      | inl cmd_obj =>
          if bool_decide (task_id cmd_obj = id) then Some cmd_obj
          else first_with_id id rest
      | inr _ => first_with_id id rest
      end
  end.

(** The calls a consumer makes on its schedule, and a series of them. *)
Inductive schedule_call : Type :=
  | CallAdd (cmd : Cmd)
  | CallRemove (cmd : Cmd)
  | CallLoadCommands (messages : list blob).

Definition schedule_step (self : CommandSchedule) (call : schedule_call)
    : CommandSchedule :=
  match call with
  | CallAdd cmd => CommandSchedule_add self cmd
  | CallRemove cmd => CommandSchedule_remove self cmd
  | CallLoadCommands messages => CommandSchedule_load_commands self messages
  end.

Definition schedule_steps (self : CommandSchedule) (calls : list schedule_call)
    : CommandSchedule :=
  fold_left schedule_step calls self.

(** Every command of the schedule sits under its own [task_id]. *)
Definition keyed_by_task_id (self : CommandSchedule) : Prop :=
  forall id cmd, _schedule self !! id = Some cmd -> task_id cmd = id.

(** [CommandSchedule.should_run].  [now] is what [datetime.datetime.now()]
    reads; a [datetime] is always true, so [dt or now()] is [dt] whenever
    one was given. *)
Definition CommandSchedule_should_run (cmd : Cmd) (dt : option Z) (now : Z) : bool :=
  let dt := match dt with Some t => t | None => now end in
  match execute_time cmd with
  | None => true
  | Some t => (t <=? dt)%Z
  end.

(** [CommandSchedule.can_run] *)
Definition CommandSchedule_can_run (cmd : Cmd) (dt : option Z) : Act bool :=
  let* revoked := Invoker_is_revoked cmd dt false in
  ret (negb revoked).

(** ** QueueCommand *)

(** A command class: what [type(self)] determines. *)
Record command_class : Type := mkClass {
  class_name : string;          (* [registry.command_to_string(cls)] *)
  class_periodic : bool;        (* a subclass of [PeriodicQueueCommand] *)
  class_execute : ustate -> outcome pyval * ustate
}.

(** [QueueCommand.create_id] and its override in [PeriodicQueueCommand].
    [uuid4] is the string the call [str(uuid.uuid4())] yields. *)
Definition create_id (cls : command_class) (uuid4 : string) : string :=
  if class_periodic cls then class_name cls else uuid4.

(** [QueueCommand.__init__].  [task_id or self.create_id()]: no id and the
    empty id both ask for a fresh one. *)
Definition QueueCommand_init (cls : command_class) (uuid4 : string)
    (data : pyval) (task_id : option string) (execute_time : option Z)
    (retries retry_delay : Z) : Cmd :=
  {| type_name := class_name cls;
     data := data;
     task_id := match task_id with
                | Some id => if String.eqb id "" then create_id cls uuid4 else id
                | None => create_id cls uuid4
                end;
     execute_time := execute_time;
     retries := retries;
     retry_delay := retry_delay;
     periodic := class_periodic cls;
     run := class_execute cls |}.

(** [QueueCommand.execute] as the base class has it. *)
Definition QueueCommand_execute : ustate -> outcome pyval * ustate :=
  fun u => (Raise NotImplementedError, u).

(** [QueueCommand.__eq__]; the class of a command is known by its
    registry name. *)
Definition QueueCommand_eq (self rhs : Cmd) : bool :=
  bool_decide (task_id self = task_id rhs) &&
  bool_decide (execute_time self = execute_time rhs) &&
  bool_decide (type_name self = type_name rhs).

(** [PeriodicQueueCommand.validate_datetime] as the base class has it. *)
Definition PeriodicQueueCommand_validate_datetime (dt : Z) : bool := false.

End Consumer.

Arguments CommandSchedule : clear implicits.
Arguments command_class : clear implicits.
Arguments schedule_call : clear implicits.

(** A timeout, if one is given, is positive. *)
Definition positive_timeout (timeout : option Q) : Prop :=
  match timeout with Some t => (0 < t)%Q | None => True end.

(** ** More fixtures *)

Module SuiteTasks.

Import Fixtures.

(** A registry that knows [modify_state] and [every_hour] and rebuilds
    the commands [t1] and [every_hour] from their messages. *)
Definition decode (msg : blob) : QueueCommand state + string :=
  match pickle_loads msg with
  | PyTuple (PyStr "queuecmd_modify_state" :: PyStr "t1" :: _) => inl t1
  | PyTuple (PyStr "queuecmd_every_hour" :: _) => inl every_hour
  | _ => inr "not found in CommandRegistry"
  end.

(** A message of a task type nobody registered. *)
Definition stale_message : blob :=
  pickle_dumps (PyTuple [PyStr "queuecmd_gone"; PyStr "t9"; PyNone; PyNone;
                         PyInt 0; PyInt 0]).

Definition every_hour_class : command_class state :=
  {| class_name := "queuecmd_every_hour";
     class_periodic := true;
     class_execute := run every_hour |}.

(** [modify_state('k2', 'v2')] scheduled under the id of [t1]. *)
Definition t1_again : QueueCommand state :=
  {| type_name := "queuecmd_modify_state";
     data := PyTuple [PyStr "k2"; PyStr "v2"];
     task_id := "t1";
     execute_time := Some 2037%Z;
     retries := 3;
     retry_delay := 10;
     periodic := false;
     run := fun st => (Return (PyStr "v2"), <["k2" := PyStr "v2"]> st) |}.

(** [blow_up()]: the task that raises. *)
Definition blow_up : QueueCommand state :=
  {| type_name := "queuecmd_blow_up";
     data := PyTuple [];
     task_id := "t2";
     execute_time := None;
     retries := 0;
     retry_delay := 0;
     periodic := false;
     run := fun st => (Raise (UserException "blowed up"), st) |}.

(** A queue holding a message of an unregistered type ahead of [t1]. *)
Definition stale_world : World state :=
  world_of {| queue := {| blocking := false;
                          messages := [stale_message; get_message_for_command t1] |};
              result_store := Some empty_store;
              task_store := Some empty_store; store_none := false;
              always_eager := false |}.

(** The result store of [finished_world]. *)
Definition finished_store : DataStore :=
  DataStore_put "t1" (pickle_dumps (PyStr "v")) empty_store.

(** What a client does that waits for [t1] with everything switched on. *)
Definition wait (fuel : nat) (timeout : option Q) (revoke_on_timeout : bool)
    : M state (maybe pyval * AsyncData state) :=
  AsyncData_get fuel true timeout (115 # 100) 1 revoke_on_timeout fresh_handle.

End SuiteTasks.

(** * Properties *)

Section Properties.

Context {ustate : Type}.

Implicit Types (w : World ustate) (command : QueueCommand ustate)
  (self : AsyncData ustate) (rs : DataStore).

(** ** The store primitives *)

Lemma configured_true {A} (x : A) : bool_decide (is_Some (Some x)) = true.
Proof. reflexivity. Qed.

Lemma configured_false {A} : bool_decide (is_Some (@None A)) = false.
Proof. reflexivity. Qed.

Lemma Invoker__get_configured w rs key peek :
  result_store (invoker w) = Some rs ->
  Invoker__get key peek w =
    (Return (found (results rs !! key)),
     update_result_store
       (snd (if peek then DataStore_peek key rs else DataStore_get key rs)) w).
Proof.
  intros Hrs. unfold Invoker__get, bind, self_invoker. rewrite Hrs.
  destruct peek; reflexivity.
Qed.

Lemma Invoker__get_unconfigured w key peek :
  result_store (invoker w) = None ->
  Invoker__get key peek w = (Raise DataStoreGetException, w).
Proof.
  intros Hrs. unfold Invoker__get, bind, self_invoker. rewrite Hrs. reflexivity.
Qed.

Lemma Invoker__put_configured w rs key value :
  result_store (invoker w) = Some rs ->
  Invoker__put key value w =
    (Return tt, update_result_store (DataStore_put key value rs) w).
Proof.
  intros Hrs. unfold Invoker__put, bind, self_invoker. rewrite Hrs. reflexivity.
Qed.

Lemma Invoker__put_unconfigured w key value :
  result_store (invoker w) = None ->
  Invoker__put key value w = (Raise DataStorePutException, w).
Proof.
  intros Hrs. unfold Invoker__put, bind, self_invoker. rewrite Hrs. reflexivity.
Qed.

Lemma result_store_update s w :
  result_store (invoker (update_result_store s w)) = Some s.
Proof. reflexivity. Qed.

Lemma stored_update s w key :
  stored (update_result_store s w) key = results s !! key.
Proof. reflexivity. Qed.

Lemma store_log_update s w :
  store_log (update_result_store s w) = oplog s.
Proof. reflexivity. Qed.

(** ** revoke *)

Lemma revoke_without_task_store w command revoke_until revoke_once :
  task_store (invoker w) = None ->
  Invoker_revoke command revoke_until revoke_once w =
    (Raise (QueueException "A DataStore is required to revoke commands"), w).
Proof.
  intros Hts. unfold Invoker_revoke, bind, self_invoker. rewrite Hts. reflexivity.
Qed.

Lemma revoke_with_task_store w ts command revoke_until revoke_once :
  task_store (invoker w) = Some ts ->
  Invoker_revoke command revoke_until revoke_once w =
    Invoker__put (revoke_id command)
      (pickle_dumps (revoke_record revoke_until revoke_once)) w.
Proof.
  intros Hts. unfold Invoker_revoke, bind, self_invoker. rewrite Hts. reflexivity.
Qed.

(** A [revoke] that returns has put the record into the result store. *)
Lemma revoke_returned w w1 command revoke_until revoke_once :
  Invoker_revoke command revoke_until revoke_once w = (Return tt, w1) ->
  exists rs,
    result_store (invoker w) = Some rs /\
    w1 = update_result_store
           (DataStore_put (revoke_id command)
              (pickle_dumps (revoke_record revoke_until revoke_once)) rs) w.
Proof.
  intros H. destruct (task_store (invoker w)) as [ts|] eqn:Hts.
  - rewrite (revoke_with_task_store _ _ _ _ _ Hts) in H.
    destruct (result_store (invoker w)) as [rs|] eqn:Hrs.
    + rewrite (Invoker__put_configured _ _ _ _ Hrs) in H.
      exists rs. split; [reflexivity | congruence].
    + rewrite (Invoker__put_unconfigured _ _ _ Hrs) in H. discriminate.
  - rewrite (revoke_without_task_store _ _ _ _ Hts) in H. discriminate.
Qed.

(** The configuration error is raised exactly when the task store is
    missing; the result store plays no part in the test. *)
Lemma revoke_config_error_iff w command revoke_until revoke_once :
  fst (Invoker_revoke command revoke_until revoke_once w) =
    Raise (QueueException "A DataStore is required to revoke commands")
  <-> task_store (invoker w) = None.
Proof.
  split.
  - destruct (task_store (invoker w)) as [ts|] eqn:Hts; [|reflexivity].
    rewrite (revoke_with_task_store _ _ _ _ _ Hts).
    destruct (result_store (invoker w)) as [rs|] eqn:Hrs.
    + rewrite (Invoker__put_configured _ _ _ _ Hrs). discriminate.
    + rewrite (Invoker__put_unconfigured _ _ _ Hrs). discriminate.
  - intros Hts. rewrite (revoke_without_task_store _ _ _ _ Hts). reflexivity.
Qed.

(** ** is_revoked *)

Lemma is_revoked_unconfigured w command dt preserve :
  result_store (invoker w) = None ->
  Invoker_is_revoked command dt preserve w = (Return false, w).
Proof.
  intros Hrs. unfold Invoker_is_revoked, bind, self_invoker. rewrite Hrs.
  reflexivity.
Qed.

Lemma is_revoked_no_record w rs command dt preserve :
  result_store (invoker w) = Some rs ->
  results rs !! revoke_id command = None ->
  Invoker_is_revoked command dt preserve w =
    (Return false, update_result_store (peeked (revoke_id command) rs) w).
Proof.
  intros Hrs Hkey. unfold Invoker_is_revoked, bind, self_invoker.
  rewrite Hrs, configured_true. cbn [negb]. cbv beta.
  rewrite (Invoker__get_configured _ _ _ _ Hrs), Hkey. reflexivity.
Qed.

Lemma is_revoked_unpacked w rs command dt preserve b revoke_until revoke_once :
  result_store (invoker w) = Some rs ->
  results rs !! revoke_id command = Some b ->
  unpack_pair (pickle_loads b) = inl (revoke_until, revoke_once) ->
  Invoker_is_revoked command dt preserve w =
    let w1 := update_result_store (peeked (revoke_id command) rs) w in
    if truthy revoke_once then
      (Return true,
       if preserve then w1
       else update_result_store (consumed (revoke_id command) rs) w)
    else if is_None revoke_until then (Return true, w1)
    else datetime_gt revoke_until dt w1.
Proof.
  intros Hrs Hkey Hpair. unfold Invoker_is_revoked, bind, self_invoker.
  rewrite Hrs, configured_true. cbn [negb]. cbv beta.
  rewrite (Invoker__get_configured _ _ _ _ Hrs), Hkey. cbn [found].
  rewrite Hpair.
  destruct (truthy revoke_once); [|destruct (is_None revoke_until); reflexivity].
  destruct preserve; cbn [negb]; [reflexivity|].
  unfold Invoker_restore, bind.
  rewrite (Invoker__get_configured _ (peeked (revoke_id command) rs) _ false
             (result_store_update _ _)).
  reflexivity.
Qed.

Lemma is_revoked_record w rs command dt preserve revoke_until revoke_once :
  result_store (invoker w) = Some rs ->
  results rs !! revoke_id command =
    Some (Pickled (PyTuple [revoke_until; revoke_once])) ->
  Invoker_is_revoked command dt preserve w =
    let w1 := update_result_store (peeked (revoke_id command) rs) w in
    if truthy revoke_once then
      (Return true,
       if preserve then w1
       else update_result_store (consumed (revoke_id command) rs) w)
    else if is_None revoke_until then (Return true, w1)
    else datetime_gt revoke_until dt w1.
Proof.
  intros Hrs Hkey. apply (is_revoked_unpacked _ _ _ _ _ _ _ _ Hrs Hkey).
  reflexivity.
Qed.

Lemma is_revoked_malformed w rs command dt preserve b e :
  result_store (invoker w) = Some rs ->
  results rs !! revoke_id command = Some b ->
  unpack_pair (pickle_loads b) = inr e ->
  Invoker_is_revoked command dt preserve w =
    (Raise e, update_result_store (peeked (revoke_id command) rs) w).
Proof.
  intros Hrs Hkey Hbad. unfold Invoker_is_revoked, bind, self_invoker.
  rewrite Hrs, configured_true. cbn [negb]. cbv beta.
  rewrite (Invoker__get_configured _ _ _ _ Hrs), Hkey. cbn [found].
  rewrite Hbad. reflexivity.
Qed.

Lemma datetime_gt_world revoke_until dt w :
  snd (datetime_gt (ustate := ustate) revoke_until dt w) = w.
Proof.
  destruct revoke_until, dt; reflexivity.
Qed.

(** C2 (as amended): for a command with a revoke record, [is_revoked]
    reads the record with [peek], whatever [preserve] is.  The record is
    then removed, by one destructive [get], exactly when its [revoke_once]
    flag is set and [preserve] is false; in every other case it stays in
    the store.  No other key is touched. *)
Theorem is_revoked_always_peeks w rs command dt preserve b :
  result_store (invoker w) = Some rs ->
  results rs !! revoke_id command = Some b ->
  let w' := snd (Invoker_is_revoked command dt preserve w) in
  let removed := once_flag b && negb preserve in
  store_log w' =
    (oplog rs ++ OpPeek (revoke_id command) ::
       (if removed then [OpGet (revoke_id command)] else []))%list /\
  stored w' (revoke_id command) = (if removed then None else Some b) /\
  forall key, key <> revoke_id command -> stored w' key = results rs !! key.
Proof.
  intros Hrs Hkey w' removed. subst w' removed. unfold once_flag.
  destruct (unpack_pair (pickle_loads b)) as [[u o]|e] eqn:Hpair.
  - rewrite (is_revoked_unpacked _ _ _ _ _ _ _ _ Hrs Hkey Hpair). cbv zeta.
    destruct (truthy o); cbn [andb].
    + destruct preserve; cbn [negb snd].
      * rewrite store_log_update, stored_update. cbn. rewrite Hkey. auto.
      * rewrite store_log_update, stored_update. cbn.
        rewrite <- app_assoc. cbn.
        split; [reflexivity|]. split; [apply lookup_delete_eq|].
        intros key Hne. apply lookup_delete_ne. congruence.
    + destruct (is_None u).
      * cbn [snd]. rewrite store_log_update, stored_update. cbn.
        rewrite Hkey. auto.
      * rewrite datetime_gt_world, store_log_update, stored_update. cbn.
        rewrite Hkey. auto.
  - rewrite (is_revoked_malformed _ _ _ _ _ _ _ Hrs Hkey Hpair). cbn [snd andb].
    rewrite store_log_update, stored_update. cbn. rewrite Hkey. auto.
Qed.

(** C9: without a result store [is_revoked] answers false, raises nothing
    and leaves the whole world (queue, task store, logs) as it was, also
    after any series of [revoke] calls. *)
Theorem is_revoked_without_result_store w calls command dt preserve :
  result_store (invoker w) = None ->
  after_revokes calls w = w /\
  Invoker_is_revoked command dt preserve (after_revokes calls w) =
    (Return false, after_revokes calls w).
Proof.
  intros Hrs.
  assert (after_revokes calls w = w) as Hsame.
  { induction calls as [|[[c u] o] rest IH]; [reflexivity|].
    cbn [after_revokes].
    destruct (task_store (invoker w)) as [ts|] eqn:Hts.
    - rewrite (revoke_with_task_store _ _ _ _ _ Hts),
        (Invoker__put_unconfigured _ _ _ Hrs). exact IH.
    - rewrite (revoke_without_task_store _ _ _ _ Hts). exact IH. }
  split; [exact Hsame|].
  rewrite Hsame. apply is_revoked_unconfigured. exact Hrs.
Qed.

(** ** revoke, then is_revoked *)

Lemma restore_configured w rs command :
  result_store (invoker w) = Some rs ->
  Invoker_restore command w =
    (Return tt,
     update_result_store (snd (DataStore_get (revoke_id command) rs)) w).
Proof.
  intros Hrs. unfold Invoker_restore, bind.
  rewrite (Invoker__get_configured _ _ _ false Hrs). reflexivity.
Qed.

(** While an indefinite record is stored, any number of non-preserving
    [is_revoked] calls answer true and change nothing but the log. *)
Lemma is_revoked_each_indefinite command dts : forall w rs,
  result_store (invoker w) = Some rs ->
  results rs !! revoke_id command = Some (pickle_dumps (revoke_record None false)) ->
  exists rs',
    is_revoked_each command dts false w =
      (Return (repeat true (length dts)), update_result_store rs' w) /\
    results rs' = results rs.
Proof.
  induction dts as [|dt rest IH]; intros w rs Hrs Hkey.
  - exists rs. split; [|reflexivity].
    cbn. unfold ret. f_equal. destruct w as [[q r t sn ae] u c].
    cbn in Hrs. subst r. reflexivity.
  - cbn [is_revoked_each]. unfold bind at 1.
    rewrite (is_revoked_record _ _ _ _ _ _ _ Hrs Hkey). cbn [truthy is_None].
    cbv zeta.
    destruct (IH (update_result_store (peeked (revoke_id command) rs) w)
                (peeked (revoke_id command) rs) (result_store_update _ _) Hkey)
      as (rs' & Hrun & Hsame).
    exists rs'. split; [|exact Hsame].
    unfold bind. rewrite Hrun. reflexivity.
Qed.

(** C3: after [revoke(command)] with the default arguments, every
    non-preserving [is_revoked] call answers true, for every time and any
    number of repetitions, and the record stays in place; [restore] then
    removes the record, after which [is_revoked] answers false. *)
Theorem revoke_indefinite_until_restore w w1 command :
  Invoker_revoke command None false w = (Return tt, w1) ->
  forall dts, exists w2 w3,
    is_revoked_each command dts false w1 =
      (Return (repeat true (length dts)), w2) /\
    stored w2 (revoke_id command) =
      Some (pickle_dumps (revoke_record None false)) /\
    Invoker_restore command w2 = (Return tt, w3) /\
    stored w3 (revoke_id command) = None /\
    forall dt, fst (Invoker_is_revoked command dt false w3) = Return false.
Proof.
  intros Hrevoke dts.
  destruct (revoke_returned _ _ _ _ _ Hrevoke) as (rs & Hrs & ->).
  set (rs1 := DataStore_put (revoke_id command)
                (pickle_dumps (revoke_record None false)) rs).
  assert (results rs1 !! revoke_id command =
            Some (pickle_dumps (revoke_record None false))) as Hkey
    by apply lookup_insert_eq.
  destruct (is_revoked_each_indefinite command dts (update_result_store rs1 w)
              rs1 (result_store_update _ _) Hkey) as (rs2 & Hrun & Hsame).
  exists (update_result_store rs2 w),
         (update_result_store (snd (DataStore_get (revoke_id command) rs2)) w).
  split; [exact Hrun|].
  split; [rewrite stored_update, Hsame; exact Hkey|].
  split; [exact (restore_configured (update_result_store rs2 w) rs2 command eq_refl)|].
  split; [rewrite stored_update; apply lookup_delete_eq|].
  intros dt.
  rewrite (is_revoked_no_record _ (snd (DataStore_get (revoke_id command) rs2)));
    [reflexivity | reflexivity | apply lookup_delete_eq].
Qed.

(** C4: after [revoke(command, once=True)] (with any [revoke_until]) the
    first non-preserving [is_revoked] answers true and deletes the record;
    the second answers false; at all times. *)
Theorem revoke_once_consumed_by_first_check w w1 command revoke_until :
  Invoker_revoke command revoke_until true w = (Return tt, w1) ->
  forall now now', exists w2 w3,
    Invoker_is_revoked command now false w1 = (Return true, w2) /\
    stored w2 (revoke_id command) = None /\
    Invoker_is_revoked command now' false w2 = (Return false, w3).
Proof.
  intros Hrevoke now now'.
  destruct (revoke_returned _ _ _ _ _ Hrevoke) as (rs & Hrs & ->).
  set (rs1 := DataStore_put (revoke_id command)
                (pickle_dumps (revoke_record revoke_until true)) rs).
  assert (results rs1 !! revoke_id command =
            Some (pickle_dumps (revoke_record revoke_until true))) as Hkey
    by apply lookup_insert_eq.
  exists (update_result_store (consumed (revoke_id command) rs1) w),
         (update_result_store
            (peeked (revoke_id command) (consumed (revoke_id command) rs1)) w).
  split.
  { rewrite (is_revoked_record (update_result_store rs1 w) rs1 _ _ _ _ _
               (result_store_update _ _) Hkey).
    reflexivity. }
  split; [rewrite stored_update; apply lookup_delete_eq|].
  rewrite (is_revoked_no_record _ (consumed (revoke_id command) rs1));
    [reflexivity | reflexivity | apply lookup_delete_eq].
Qed.

(** C5: after [revoke(command, until=T)], [is_revoked(command, now)]
    answers true exactly when [now < T]; at [now = T] and later it answers
    false.  The record is left in place. *)
Theorem revoke_until_strictly_before w w1 command T :
  Invoker_revoke command (Some T) false w = (Return tt, w1) ->
  forall now preserve, exists answer w2,
    Invoker_is_revoked command (Some now) preserve w1 = (Return answer, w2) /\
    (answer = true <-> (now < T)%Z) /\
    stored w2 (revoke_id command) = stored w1 (revoke_id command).
Proof.
  intros Hrevoke now preserve.
  destruct (revoke_returned _ _ _ _ _ Hrevoke) as (rs & Hrs & ->).
  set (rs1 := DataStore_put (revoke_id command)
                (pickle_dumps (revoke_record (Some T) false)) rs).
  assert (results rs1 !! revoke_id command =
            Some (pickle_dumps (revoke_record (Some T) false))) as Hkey
    by apply lookup_insert_eq.
  exists (now <? T)%Z, (update_result_store (peeked (revoke_id command) rs1) w).
  split.
  { rewrite (is_revoked_record (update_result_store rs1 w) rs1 _ _ _ _ _
               (result_store_update _ _) Hkey).
    reflexivity. }
  split; [apply Z.ltb_lt | reflexivity].
Qed.

(** ** execute and enqueue *)

Lemma is_None_true v : is_None v = true -> v = PyNone.
Proof. destruct v; (reflexivity || discriminate). Qed.

(** C8: [execute] returns the value of the user code, and the result
    store receives exactly one [put], of that value under [task_id], if and
    only if a result store is configured, the command is not periodic and
    the value is not null or [store_none] is set; otherwise no store
    receives anything.  The queue and the task store are never touched. *)
Theorem execute_returns_and_stores w command v u' :
  run command (user w) = (Return v, u') ->
  let writes :=
    bool_decide (is_Some (result_store (invoker w))) &&
    negb (periodic command) &&
    (negb (is_None v) || store_none (invoker w)) in
  exists w',
    Invoker_execute (Command command) w = (Return v, w') /\
    user w' = u' /\
    store_log w' =
      (store_log w ++
         if writes then [OpPut (task_id command) (pickle_dumps v)] else [])%list /\
    (forall key,
        stored w' key =
          if writes && bool_decide (key = task_id command)
          then Some (pickle_dumps v) else stored w key) /\
    queue (invoker w') = queue (invoker w) /\
    task_store (invoker w') = task_store (invoker w).
Proof.
  intros Hrun writes. subst writes.
  unfold Invoker_execute, bind, self_invoker, command_execute.
  rewrite Hrun. cbn [invoker update_user].
  destruct (is_None v) eqn:Hnone;
    [apply is_None_true in Hnone; subst v|];
    destruct (store_none (invoker w)) eqn:Hsn;
    destruct (result_store (invoker w)) as [rs|] eqn:Hrs;
    destruct (periodic command) eqn:Hp;
    rewrite ?configured_true, ?(configured_false (A:=DataStore));
    cbn [negb andb orb];
    try rewrite (Invoker__put_configured (update_user u' w) rs _ _ Hrs);
    (eexists; split; [reflexivity|]);
    unfold store_log, stored;
    cbn [invoker result_store update_user update_result_store DataStore_put
         oplog results user queue task_store];
    rewrite ?Hrs, ?app_nil_r; repeat split; try reflexivity;
    (intros key; cbn [andb]; case_bool_decide;
     [subst; apply lookup_insert_eq | apply lookup_insert_ne; congruence]).
Qed.

(** C10: with [always_eager] set, [enqueue] runs the user code and returns
    its raw value, not a handle; the invoker (queue, result store, task
    store and their logs) is left exactly as it was. *)
Theorem enqueue_eager_runs_directly w command v u' :
  always_eager (invoker w) = true ->
  run command (user w) = (Return v, u') ->
  exists w',
    Invoker_enqueue command w = (Return (Value v), w') /\
    invoker w' = invoker w /\
    user w' = u'.
Proof.
  intros Heager Hrun. exists (update_user u' w).
  unfold Invoker_enqueue, bind, self_invoker, command_execute.
  rewrite Heager, Hrun. auto.
Qed.

(** ** AsyncData *)

Lemma AsyncData__get_cached self v w :
  _result self = Data v ->
  AsyncData__get self w = (Return (Data v, self), w).
Proof.
  intros Hc. unfold AsyncData__get. rewrite Hc. reflexivity.
Qed.

Lemma AsyncData__get_miss self w rs :
  _result self = EmptyData ->
  result_store (invoker w) = Some rs ->
  results rs !! task_id (command self) = None ->
  AsyncData__get self w =
    (Return (EmptyData, self),
     update_result_store (snd (DataStore_get (task_id (command self)) rs)) w).
Proof.
  intros Hc Hrs Hkey. unfold AsyncData__get, bind. rewrite Hc. cbn [is_EmptyData].
  rewrite (Invoker__get_configured _ _ _ false Hrs), Hkey. reflexivity.
Qed.

Lemma AsyncData__get_hit self w rs b :
  _result self = EmptyData ->
  result_store (invoker w) = Some rs ->
  results rs !! task_id (command self) = Some b ->
  AsyncData__get self w =
    (Return (Data (pickle_loads b),
             {| command := command self; _result := Data (pickle_loads b) |}),
     update_result_store (snd (DataStore_get (task_id (command self)) rs)) w).
Proof.
  intros Hc Hrs Hkey. unfold AsyncData__get, bind. rewrite Hc. cbn [is_EmptyData].
  rewrite (Invoker__get_configured _ _ _ false Hrs), Hkey. reflexivity.
Qed.

(** Whatever [_get] answers is what the cache holds afterwards. *)
Lemma AsyncData__get_answer self w res self' w' :
  AsyncData__get self w = (Return (res, self'), w') ->
  res = _result self'.
Proof.
  destruct (_result self) as [|v] eqn:Hc.
  - destruct (result_store (invoker w)) as [rs|] eqn:Hrs.
    + destruct (results rs !! task_id (command self)) as [b|] eqn:Hkey.
      * rewrite (AsyncData__get_hit _ _ _ _ Hc Hrs Hkey). intros [= <- <- _].
        reflexivity.
      * rewrite (AsyncData__get_miss _ _ _ Hc Hrs Hkey). intros [= <- <- _].
        symmetry. exact Hc.
    + unfold AsyncData__get, bind. rewrite Hc. cbn [is_EmptyData].
      rewrite (Invoker__get_unconfigured _ _ _ Hrs). discriminate.
  - rewrite (AsyncData__get_cached _ _ _ Hc). intros [= <- <- _].
    symmetry. exact Hc.
Qed.

Lemma get_loop_cached fuel timeout backoff max_delay rot start delay self v w :
  _result self = Data v ->
  get_loop fuel timeout backoff max_delay rot start delay self w =
    (Return (Data v, self), w).
Proof.
  intros Hc. destruct fuel; cbn [get_loop]; rewrite Hc; reflexivity.
Qed.

(** A blocking loop that returns, returns the cache, which holds a
    value. *)
Lemma get_loop_answer timeout backoff max_delay rot start fuel :
  forall delay self w res self' w',
  get_loop fuel timeout backoff max_delay rot start delay self w =
    (Return (res, self'), w') ->
  res = _result self' /\ _result self' <> EmptyData.
Proof.
  induction fuel as [|fuel IH]; intros delay self w res self' w'.
  - cbn [get_loop]. destruct (_result self) as [|v] eqn:Hc; cbn [is_EmptyData].
    + discriminate.
    + intros [= <- <- _]. rewrite Hc. split; [reflexivity | discriminate].
  - cbn [get_loop]. destruct (_result self) as [|v] eqn:Hc; cbn [is_EmptyData].
    + unfold bind at 1. unfold time_time.
      destruct (timeout_set timeout &&
                Qle_bool (timeout_value timeout) (clock w - start)).
      * unfold bind, raise.
        destruct ((if rot then AsyncData_revoke self else ret tt) w) as [[?|?|] ?];
          discriminate.
      * unfold bind at 1.
        destruct (AsyncData__get self w) as [[[res1 self1]|e|] w1] eqn:Hget;
          try discriminate.
        destruct (is_EmptyData res1).
        -- unfold bind, time_sleep. apply IH.
        -- apply IH.
    + intros [= <- <- _]. rewrite Hc. split; [reflexivity | discriminate].
Qed.

(** With a value in the cache, [get] answers it and touches nothing. *)
Lemma get_cached fuel blocking timeout backoff max_delay rot self v w :
  _result self = Data v ->
  AsyncData_get fuel blocking timeout backoff max_delay rot self w =
    (Return (Data v, self), w).
Proof.
  intros Hc. unfold AsyncData_get, bind. destruct blocking; cbn [negb].
  - unfold time_time. apply get_loop_cached. exact Hc.
  - rewrite (AsyncData__get_cached _ _ _ Hc). reflexivity.
Qed.

(** A [get] that left a value in the cache answered that value. *)
Lemma get_answer fuel blocking timeout backoff max_delay rot self w res self' w' :
  AsyncData_get fuel blocking timeout backoff max_delay rot self w =
    (Return (res, self'), w') ->
  _result self' <> EmptyData ->
  res = _result self'.
Proof.
  unfold AsyncData_get, bind. destruct blocking; cbn [negb].
  - unfold time_time. intros Hloop _.
    exact (proj1 (get_loop_answer _ _ _ _ _ _ _ _ _ _ _ _ Hloop)).
  - destruct (AsyncData__get self w) as [[[res1 self1]|e|] w1] eqn:Hget;
      try discriminate.
    apply AsyncData__get_answer in Hget. subst res1.
    destruct (_result self1) as [|v] eqn:Hc; cbn [is_EmptyData negb].
    + intros [= <- <- _] Hne. contradiction.
    + intros [= <- <- _] _. symmetry. exact Hc.
Qed.

(** A [get] that blocked, or that answered anything but [None], has left a
    value in the cache. *)
Lemma get_hit fuel blocking timeout backoff max_delay rot self w res self' w' :
  AsyncData_get fuel blocking timeout backoff max_delay rot self w =
    (Return (res, self'), w') ->
  blocking = true \/ res <> Data PyNone ->
  _result self' <> EmptyData.
Proof.
  unfold AsyncData_get, bind. destruct blocking; cbn [negb].
  - unfold time_time. intros Hloop _.
    exact (proj2 (get_loop_answer _ _ _ _ _ _ _ _ _ _ _ _ Hloop)).
  - destruct (AsyncData__get self w) as [[[res1 self1]|e|] w1] eqn:Hget;
      try discriminate.
    apply AsyncData__get_answer in Hget. subst res1.
    destruct (_result self1) as [|v] eqn:Hc; cbn [is_EmptyData negb].
    + intros [= <- <- _] [|Hne]; [discriminate | contradiction].
    + intros [= <- <- _] _. congruence.
Qed.

(** C6 (as amended): for a handle that has cached nothing and whose task
    has no record in the result store, a non-blocking [get] performs one
    store lookup (a destructive [get] under [task_id], which changes no
    record) and returns [None], not [EmptyData]; a stored null result is
    answered with the very same [None]. *)
Theorem get_not_ready_returns_None self w rs fuel timeout backoff max_delay rot :
  _result self = EmptyData ->
  result_store (invoker w) = Some rs ->
  results rs !! task_id (command self) = None ->
  (exists w',
      AsyncData_get fuel false timeout backoff max_delay rot self w =
        (Return (Data PyNone, self), w') /\
      store_log w' = (oplog rs ++ [OpGet (task_id (command self))])%list /\
      forall key, stored w' key = results rs !! key) /\
  (forall w0 rs0,
      result_store (invoker w0) = Some rs0 ->
      results rs0 !! task_id (command self) = Some (pickle_dumps PyNone) ->
      answer (fst (AsyncData_get fuel false timeout backoff max_delay rot self w0)) =
        Return (Data PyNone)).
Proof.
  intros Hc Hrs Hkey. split.
  - eexists. unfold AsyncData_get, bind. cbn [negb].
    rewrite (AsyncData__get_miss _ _ _ Hc Hrs Hkey). cbn [is_EmptyData negb].
    split; [reflexivity|]. split; [reflexivity|].
    intros key. rewrite stored_update. cbn [DataStore_get snd results].
    destruct (decide (key = task_id (command self))) as [->|Hne].
    + rewrite lookup_delete_eq. symmetry. exact Hkey.
    + apply lookup_delete_ne. congruence.
  - intros w0 rs0 Hrs0 Hkey0. unfold AsyncData_get, bind. cbn [negb].
    rewrite (AsyncData__get_hit _ _ _ _ Hc Hrs0 Hkey0). reflexivity.
Qed.

(** C7: once a [get] has returned a value found for the task (the handle
    holds it in its cache afterwards: every blocking return and every
    answer other than the [None] of a miss is such a hit, see [get_hit]),
    every later [get], blocking or not, with any arguments and in any
    world, returns the same value and leaves that world, store log
    included, as it found it. *)
Theorem get_idempotent_after_first_hit
    fuel blocking timeout backoff max_delay rot self w res self' w' :
  AsyncData_get fuel blocking timeout backoff max_delay rot self w =
    (Return (res, self'), w') ->
  _result self' <> EmptyData ->
  (exists v, res = Data v) /\
  forall calls : list (get_call ustate),
    get_each calls self' = map (fun c => (Return res, call_world c)) calls.
Proof.
  intros Hget Hne.
  pose proof (get_answer _ _ _ _ _ _ _ _ _ _ _ Hget Hne) as Hres.
  destruct (_result self') as [|v] eqn:Hc; [contradiction|]. subst res.
  split; [exists v; reflexivity|].
  induction calls as [|c rest IH]; [reflexivity|].
  cbn [get_each map]. rewrite (get_cached _ _ _ _ _ _ _ _ _ Hc), IH. reflexivity.
Qed.

End Properties.

(** * The properties on the test suite's fixtures *)

Section Instances.

Import Fixtures.

(** C1: [revoke] tests the task store, not the result store it writes to.
    With a result store but no task store it raises the configuration
    error and writes nothing; with a task store but no result store it
    passes the test and fails in the put. *)
Theorem revoke_tests_the_wrong_store :
  (is_Some (result_store (invoker result_store_only)) /\
   Invoker_revoke t1 None false result_store_only =
     (Raise (QueueException "A DataStore is required to revoke commands"),
      result_store_only)) /\
  (result_store (invoker task_store_only) = None /\
   Invoker_revoke t1 None false task_store_only =
     (Raise DataStorePutException, task_store_only)).
Proof.
  split; split; try reflexivity. eexists. reflexivity.
Qed.

(** C2, refuted as stated: an indefinite revoke record is read with
    [peek] although [preserve] is false, and is still in the store after
    the call. *)
Lemma is_revoked_destructive_read_counterexample :
  stored revoked_world (revoke_id t1) =
    Some (pickle_dumps (revoke_record None false)) /\
  fst (Invoker_is_revoked t1 (Some 0%Z) false revoked_world) = Return true /\
  store_log (snd (Invoker_is_revoked t1 (Some 0%Z) false revoked_world)) =
    (store_log revoked_world ++ [OpPeek (revoke_id t1)])%list /\
  stored (snd (Invoker_is_revoked t1 (Some 0%Z) false revoked_world))
    (revoke_id t1) <> None.
Proof.
  split; [reflexivity|]. split; [reflexivity|].
  split; [reflexivity|]. vm_compute. discriminate.
Qed.

Lemma is_revoked_always_peeks_witness :
  result_store (invoker revoked_once_world) = Some once_store /\
  results once_store !! revoke_id every_hour =
    Some (pickle_dumps (revoke_record None true)) /\
  (let w' := snd (Invoker_is_revoked every_hour (Some 0%Z) false revoked_once_world) in
   let removed := once_flag (pickle_dumps (revoke_record None true)) && negb false in
   store_log w' =
     (oplog once_store ++ OpPeek (revoke_id every_hour) ::
        (if removed then [OpGet (revoke_id every_hour)] else []))%list /\
   stored w' (revoke_id every_hour) =
     (if removed then None else Some (pickle_dumps (revoke_record None true))) /\
   forall key,
     key <> revoke_id every_hour -> stored w' key = results once_store !! key).
Proof.
  assert (result_store (invoker revoked_once_world) = Some once_store) as Hrs
    by reflexivity.
  assert (results once_store !! revoke_id every_hour =
            Some (pickle_dumps (revoke_record None true))) as Hkey by reflexivity.
  split; [exact Hrs|]. split; [exact Hkey|].
  exact (is_revoked_always_peeks revoked_once_world once_store every_hour
           (Some 0%Z) false (pickle_dumps (revoke_record None true)) Hrs Hkey).
Defined.

(** A stored string of two characters unpacks into its characters: the
    second one is a true [revoke_once], so the command counts as revoked
    and a non-preserving check deletes the record; a preserving check
    leaves it. *)
Example is_revoked_unpacks_a_string :
  once_flag (pickle_dumps (PyStr "ab")) = true /\
  fst (Invoker_is_revoked t1 (Some 0%Z) false
         (foreign_record_world (PyStr "ab"))) = Return true /\
  store_log (snd (Invoker_is_revoked t1 (Some 0%Z) false
                    (foreign_record_world (PyStr "ab")))) =
    [OpPeek (revoke_id t1); OpGet (revoke_id t1)] /\
  stored (snd (Invoker_is_revoked t1 (Some 0%Z) false
                 (foreign_record_world (PyStr "ab")))) (revoke_id t1) = None /\
  stored (snd (Invoker_is_revoked t1 (Some 0%Z) true
                 (foreign_record_world (PyStr "ab")))) (revoke_id t1) =
    Some (pickle_dumps (PyStr "ab")).
Proof. repeat split; reflexivity. Qed.

(** What cannot be unpacked into two raises after the [peek], and the
    record stays: a number is not iterable, a triple has too many items. *)
Example is_revoked_cannot_unpack :
  Invoker_is_revoked t1 (Some 0%Z) false (foreign_record_world (PyInt 5)) =
    (Raise (TypeError "object is not iterable"),
     update_result_store
       (peeked (revoke_id t1)
          {| results := {[revoke_id t1 := pickle_dumps (PyInt 5)]}; oplog := [] |})
       (foreign_record_world (PyInt 5))) /\
  fst (Invoker_is_revoked t1 (Some 0%Z) false
         (foreign_record_world (PyTuple [PyNone; PyBool true; PyNone]))) =
    Raise (ValueError "need 2 values to unpack") /\
  fst (Invoker_is_revoked t1 (Some 0%Z) false
         (foreign_record_world (PyStr "abc"))) =
    Raise (ValueError "need 2 values to unpack").
Proof. repeat split; reflexivity. Qed.

Lemma is_revoked_without_result_store_witness :
  result_store (invoker task_store_only) = None /\
  (after_revokes [(t1, None, false); (every_hour, Some 5%Z, true)] task_store_only =
     task_store_only /\
   Invoker_is_revoked t1 (Some 0%Z) false
       (after_revokes [(t1, None, false); (every_hour, Some 5%Z, true)]
          task_store_only) =
     (Return false,
      after_revokes [(t1, None, false); (every_hour, Some 5%Z, true)]
        task_store_only)).
Proof.
  split; [reflexivity|].
  exact (is_revoked_without_result_store task_store_only
           [(t1, None, false); (every_hour, Some 5%Z, true)] t1 (Some 0%Z) false
           eq_refl).
Defined.

Lemma revoke_indefinite_until_restore_witness :
  Invoker_revoke t1 None false test_world = (Return tt, revoked_world) /\
  (forall dts, exists w2 w3,
      is_revoked_each t1 dts false revoked_world =
        (Return (repeat true (length dts)), w2) /\
      stored w2 (revoke_id t1) = Some (pickle_dumps (revoke_record None false)) /\
      Invoker_restore t1 w2 = (Return tt, w3) /\
      stored w3 (revoke_id t1) = None /\
      forall dt, fst (Invoker_is_revoked t1 dt false w3) = Return false).
Proof.
  assert (Invoker_revoke t1 None false test_world = (Return tt, revoked_world))
    as Hrevoke by reflexivity.
  split; [exact Hrevoke|].
  exact (revoke_indefinite_until_restore test_world revoked_world t1 Hrevoke).
Defined.

Lemma revoke_once_consumed_by_first_check_witness :
  Invoker_revoke every_hour None true test_world =
    (Return tt, revoked_once_world) /\
  (forall now now', exists w2 w3,
      Invoker_is_revoked every_hour now false revoked_once_world =
        (Return true, w2) /\
      stored w2 (revoke_id every_hour) = None /\
      Invoker_is_revoked every_hour now' false w2 = (Return false, w3)).
Proof.
  assert (Invoker_revoke every_hour None true test_world =
            (Return tt, revoked_once_world)) as Hrevoke by reflexivity.
  split; [exact Hrevoke|].
  exact (revoke_once_consumed_by_first_check test_world revoked_once_world
           every_hour None Hrevoke).
Defined.

Lemma revoke_until_strictly_before_witness :
  Invoker_revoke every_hour (Some 3600%Z) false test_world =
    (Return tt, revoked_until_world) /\
  (forall now preserve, exists answer w2,
      Invoker_is_revoked every_hour (Some now) preserve revoked_until_world =
        (Return answer, w2) /\
      (answer = true <-> (now < 3600)%Z) /\
      stored w2 (revoke_id every_hour) =
        stored revoked_until_world (revoke_id every_hour)).
Proof.
  assert (Invoker_revoke every_hour (Some 3600%Z) false test_world =
            (Return tt, revoked_until_world)) as Hrevoke by reflexivity.
  split; [exact Hrevoke|].
  exact (revoke_until_strictly_before test_world revoked_until_world every_hour
           3600%Z Hrevoke).
Defined.

(** C6, refuted as stated: with nothing stored for the task, a
    non-blocking [get] on a fresh handle answers [None], not the
    [EmptyData] marker, and a stored null result is answered with the same
    [None]. *)
Lemma get_not_ready_counterexample :
  stored test_world (task_id t1) = None /\
  answer (fst (poll fresh_handle test_world)) = Return (Data PyNone) /\
  answer (fst (poll fresh_handle test_world)) <> Return EmptyData /\
  stored null_result_world (task_id t1) = Some (pickle_dumps PyNone) /\
  answer (fst (poll fresh_handle null_result_world)) =
    answer (fst (poll fresh_handle test_world)).
Proof.
  repeat split; try reflexivity. vm_compute. discriminate.
Qed.

Lemma get_not_ready_returns_None_witness :
  _result fresh_handle = EmptyData /\
  result_store (invoker test_world) = Some empty_store /\
  results empty_store !! task_id (command fresh_handle) = None /\
  ((exists w',
       AsyncData_get 0 false None (115 # 100) 1 false fresh_handle test_world =
         (Return (Data PyNone, fresh_handle), w') /\
       store_log w' =
         (oplog empty_store ++ [OpGet (task_id (command fresh_handle))])%list /\
       forall key, stored w' key = results empty_store !! key) /\
   (forall w0 rs0,
       result_store (invoker w0) = Some rs0 ->
       results rs0 !! task_id (command fresh_handle) = Some (pickle_dumps PyNone) ->
       answer (fst (AsyncData_get 0 false None (115 # 100) 1 false fresh_handle w0)) =
         Return (Data PyNone))).
Proof.
  assert (_result fresh_handle = EmptyData) as Hc by reflexivity.
  assert (result_store (invoker test_world) = Some empty_store) as Hrs
    by reflexivity.
  assert (results empty_store !! task_id (command fresh_handle) = None) as Hkey
    by reflexivity.
  split; [exact Hc|]. split; [exact Hrs|]. split; [exact Hkey|].
  exact (get_not_ready_returns_None fresh_handle test_world empty_store 0 None
           (115 # 100) 1 false Hc Hrs Hkey).
Defined.

Lemma get_idempotent_after_first_hit_witness :
  AsyncData_get 0 false None (115 # 100) 1 false fresh_handle finished_world =
    (Return (Data (PyStr "v"), fetched_handle),
     snd (poll fresh_handle finished_world)) /\
  _result fetched_handle <> EmptyData /\
  ((exists v, Data (PyStr "v") = Data v) /\
   forall calls : list (get_call state),
     get_each calls fetched_handle =
       map (fun c => (Return (Data (PyStr "v")), call_world c)) calls).
Proof.
  assert (AsyncData_get 0 false None (115 # 100) 1 false fresh_handle
            finished_world =
          (Return (Data (PyStr "v"), fetched_handle),
           snd (poll fresh_handle finished_world))) as Hget
    by reflexivity.
  assert (_result fetched_handle <> EmptyData) as Hne by (simpl; discriminate).
  split; [exact Hget|]. split; [exact Hne|].
  exact (get_idempotent_after_first_hit 0 false None (115 # 100) 1 false
           fresh_handle finished_world (Data (PyStr "v")) fetched_handle
           (snd (poll fresh_handle finished_world)) Hget Hne).
Defined.

Lemma execute_returns_and_stores_witness :
  run t1 (user test_world) = (Return (PyStr "v"), {["k" := PyStr "v"]}) /\
  (let writes :=
     bool_decide (is_Some (result_store (invoker test_world))) &&
     negb (periodic t1) &&
     (negb (is_None (PyStr "v")) || store_none (invoker test_world)) in
   exists w',
     Invoker_execute (Command t1) test_world = (Return (PyStr "v"), w') /\
     user w' = {["k" := PyStr "v"]} /\
     store_log w' =
       (store_log test_world ++
          if writes then [OpPut (task_id t1) (pickle_dumps (PyStr "v"))] else [])%list /\
     (forall key,
         stored w' key =
           if writes && bool_decide (key = task_id t1)
           then Some (pickle_dumps (PyStr "v")) else stored test_world key) /\
     queue (invoker w') = queue (invoker test_world) /\
     task_store (invoker w') = task_store (invoker test_world)).
Proof.
  assert (run t1 (user test_world) = (Return (PyStr "v"), {["k" := PyStr "v"]}))
    as Hrun by reflexivity.
  split; [exact Hrun|].
  exact (execute_returns_and_stores test_world t1 (PyStr "v")
           {["k" := PyStr "v"]} Hrun).
Defined.

Lemma enqueue_eager_runs_directly_witness :
  always_eager (invoker eager_world) = true /\
  run t1 (user eager_world) = (Return (PyStr "v"), {["k" := PyStr "v"]}) /\
  (exists w',
      Invoker_enqueue t1 eager_world = (Return (Value (PyStr "v")), w') /\
      invoker w' = invoker eager_world /\
      user w' = {["k" := PyStr "v"]}).
Proof.
  assert (always_eager (invoker eager_world) = true) as Heager by reflexivity.
  assert (run t1 (user eager_world) = (Return (PyStr "v"), {["k" := PyStr "v"]}))
    as Hrun by reflexivity.
  split; [exact Heager|]. split; [exact Hrun|].
  exact (enqueue_eager_runs_directly eager_world t1 (PyStr "v")
           {["k" := PyStr "v"]} Heager Hrun).
Defined.

End Instances.

(** * Properties of the rest of queue.py *)

Section QueueProperties.

Context {ustate : Type}.

Implicit Types (w : World ustate) (command : QueueCommand ustate)
  (self : AsyncData ustate) (rs : DataStore).

Variable decode : blob -> QueueCommand ustate + string.

Lemma update_queue_same w : update_queue (queue (invoker w)) w = w.
Proof. destruct w as [[q r t sn ae] u c]. reflexivity. Qed.

Lemma dequeue_empty w :
  messages (queue (invoker w)) = [] ->
  Invoker_dequeue decode w = (Return None, w).
Proof.
  intros Hq. unfold Invoker_dequeue, Invoker__read, bind, self_invoker, Queue_read.
  rewrite Hq. cbn. rewrite update_queue_same. reflexivity.
Qed.

Lemma dequeue_head w msg rest :
  messages (queue (invoker w)) = msg :: rest ->
  Invoker_dequeue decode w =
    (decoded decode msg,
     update_queue {| blocking := blocking (queue (invoker w)); messages := rest |} w).
Proof.
  intros Hq. unfold Invoker_dequeue, Invoker__read, bind, self_invoker, Queue_read,
    decoded.
  rewrite Hq. cbn. destruct (decode msg); reflexivity.
Qed.

Lemma enqueue_not_eager w command :
  always_eager (invoker w) = false ->
  Invoker_enqueue command w =
    (Return (if bool_decide (is_Some (result_store (invoker w)))
             then Handle (AsyncData_init command) else Value PyNone),
     update_queue (Queue_write (get_message_for_command command)
                     (queue (invoker w))) w).
Proof.
  intros Heager. unfold Invoker_enqueue, Invoker__write, bind, self_invoker.
  rewrite Heager. cbn [set_queue].
  destruct (bool_decide (is_Some (result_store (invoker w)))); reflexivity.
Qed.

(** X1: without [always_eager], [enqueue] appends exactly the command's
    message to the queue, does not run the user code, touches no store and
    hands back a fresh handle when a result store is configured, [None]
    otherwise. *)
Theorem enqueue_queues_the_message w command :
  always_eager (invoker w) = false ->
  exists w',
    Invoker_enqueue command w =
      (Return (if bool_decide (is_Some (result_store (invoker w)))
               then Handle (AsyncData_init command) else Value PyNone), w') /\
    messages (queue (invoker w')) =
      (messages (queue (invoker w)) ++ [get_message_for_command command])%list /\
    result_store (invoker w') = result_store (invoker w) /\
    task_store (invoker w') = task_store (invoker w) /\
    user w' = user w.
Proof.
  intros Heager. eexists. rewrite (enqueue_not_eager _ _ Heager).
  split; [reflexivity|]. auto.
Qed.

(** X2: the queue is first-in first-out through the invoker: after a
    non-eager [enqueue], [dequeue] answers the oldest message (the one just
    written when the queue was empty), decoded by the registry, and
    leaves the remaining messages in order. *)
Theorem enqueue_then_dequeue_is_fifo w command :
  always_eager (invoker w) = false ->
  let msg := get_message_for_command command in
  let w1 := snd (Invoker_enqueue command w) in
  fst (Invoker_dequeue decode w1) =
    decoded decode (hd msg (messages (queue (invoker w)))) /\
  messages (queue (invoker (snd (Invoker_dequeue decode w1)))) =
    tl (messages (queue (invoker w)) ++ [msg])%list.
Proof.
  intros Heager msg w1.
  subst w1. rewrite (enqueue_not_eager _ _ Heager). cbn [snd]. fold msg.
  assert (messages (queue (invoker
            (update_queue (Queue_write msg (queue (invoker w))) w))) =
          (messages (queue (invoker w)) ++ [msg])%list) as Hq by reflexivity.
  destruct (messages (queue (invoker w))) as [|m rest] eqn:Hold;
    cbn [app hd tl] in *; rewrite (dequeue_head _ _ _ Hq); split; reflexivity.
Qed.

(** X3: [dequeue] takes the message off the queue before the registry
    sees it: a message of an unknown type makes [dequeue] raise
    [QueueException] and is gone from the queue all the same. *)
Theorem dequeue_consumes_what_it_cannot_decode w msg rest text :
  messages (queue (invoker w)) = msg :: rest ->
  decode msg = inr text ->
  fst (Invoker_dequeue decode w) = Raise (QueueException text) /\
  messages (queue (invoker (snd (Invoker_dequeue decode w)))) = rest /\
  result_store (invoker (snd (Invoker_dequeue decode w))) =
    result_store (invoker w).
Proof.
  intros Hq Hbad. rewrite (dequeue_head _ _ _ Hq). unfold decoded.
  rewrite Hbad. auto.
Qed.

(** X4: [flush] empties the queue and nothing else: the next [dequeue]
    answers [None], while the result store, with its results and revoke
    records, is as before. *)
Theorem flush_empties_the_queue_only w :
  let w1 := snd (Invoker_flush w) in
  fst (Invoker_flush w) = Return tt /\
  Invoker_dequeue decode w1 = (Return None, w1) /\
  result_store (invoker w1) = result_store (invoker w) /\
  task_store (invoker w1) = task_store (invoker w) /\
  user w1 = user w.
Proof.
  cbv zeta. split; [reflexivity|]. split; [|auto].
  apply dequeue_empty. reflexivity.
Qed.

End QueueProperties.

Section ResultProperties.

Context {ustate : Type}.

Implicit Types (w : World ustate) (command : QueueCommand ustate)
  (self : AsyncData ustate) (rs : DataStore).

Lemma not_timed_out_at_start timeout (c : Q) :
  positive_timeout timeout ->
  timeout_set timeout && Qle_bool (timeout_value timeout) (c - c) = false.
Proof.
  destruct timeout as [t|]; [|reflexivity]. cbn. intros Hpos.
  apply andb_false_iff. right. apply not_true_iff_false. intros Hle.
  apply Qle_bool_iff in Hle. apply (Qlt_not_le _ _ Hpos).
  eapply Qle_trans; [exact Hle|].
  unfold Qminus. apply Qle_lteq. right. apply Qplus_opp_r.
Qed.

(** A [get] that finds the record: one destructive lookup, no sleep. *)
Lemma get_finds_record fuel blocking timeout backoff max_delay rot self w rs b :
  _result self = EmptyData ->
  result_store (invoker w) = Some rs ->
  results rs !! task_id (command self) = Some b ->
  positive_timeout timeout ->
  AsyncData_get (S fuel) blocking timeout backoff max_delay rot self w =
    (Return (Data (pickle_loads b),
             {| command := command self; _result := Data (pickle_loads b) |}),
     update_result_store (snd (DataStore_get (task_id (command self)) rs)) w).
Proof.
  intros Hc Hrs Hkey Hpos. unfold AsyncData_get. destruct blocking; cbn [negb].
  - unfold bind at 1. unfold time_time. cbn [get_loop]. rewrite Hc.
    cbn [is_EmptyData]. unfold bind at 1. unfold time_time.
    rewrite (not_timed_out_at_start _ _ Hpos).
    unfold bind at 1. rewrite (AsyncData__get_hit _ _ _ _ Hc Hrs Hkey).
    cbn [is_EmptyData]. apply get_loop_cached. reflexivity.
  - unfold bind. rewrite (AsyncData__get_hit _ _ _ _ Hc Hrs Hkey). reflexivity.
Qed.

(** X5: the result of a task travels from the worker to the client: after
    [execute] has run a non-periodic command whose value is stored (not
    null, or [store_none] set), a fresh handle's [get], blocking or not,
    returns that value at its first lookup without sleeping, caches it, and
    takes the record out of the store. *)
Theorem executed_result_reaches_the_handle
    w rs command v u' fuel blocking timeout backoff max_delay rot :
  result_store (invoker w) = Some rs ->
  periodic command = false ->
  run command (user w) = (Return v, u') ->
  is_None v = false \/ store_none (invoker w) = true ->
  positive_timeout timeout ->
  let w1 := snd (Invoker_execute (Command command) w) in
  exists w2,
    AsyncData_get (S fuel) blocking timeout backoff max_delay rot
        (AsyncData_init command) w1 =
      (Return (Data v, {| command := command; _result := Data v |}), w2) /\
    stored w2 (task_id command) = None /\
    clock w2 = clock w1.
Proof.
  intros Hrs Hper Hrun Hstored Hpos w1.
  assert (w1 = update_result_store
                 (DataStore_put (task_id command) (pickle_dumps v) rs)
                 (update_user u' w)) as ->.
  { subst w1. unfold Invoker_execute, bind, self_invoker, command_execute.
    rewrite Hrun, Hrs, Hper, configured_true. cbn [invoker update_user andb negb].
    assert (is_None v && negb (store_none (invoker w)) = false) as ->.
    { destruct Hstored as [-> | ->]; [reflexivity | apply andb_false_r]. }
    rewrite (Invoker__put_configured (update_user u' w) rs); [|exact Hrs].
    reflexivity. }
  eexists. split.
  - apply (get_finds_record fuel blocking timeout backoff max_delay rot
             (AsyncData_init command) _
             (DataStore_put (task_id command) (pickle_dumps v) rs)
             (pickle_dumps v)); try reflexivity; [|exact Hpos].
    apply lookup_insert_eq.
  - split; [|reflexivity]. rewrite stored_update. apply lookup_delete_eq.
Qed.

(** X6: a stored result can be fetched once.  When one handle has read the
    record, a second fresh handle for the same task finds nothing: its
    non-blocking [get] answers [None]. *)
Theorem result_is_fetched_once w rs b self self2 :
  result_store (invoker w) = Some rs ->
  results rs !! task_id (command self) = Some b ->
  _result self = EmptyData ->
  _result self2 = EmptyData ->
  task_id (command self2) = task_id (command self) ->
  let get h := AsyncData_get 0 false None (115 # 100) 1 false h in
  exists self1 w1 w2,
    get self w = (Return (Data (pickle_loads b), self1), w1) /\
    _result self1 = Data (pickle_loads b) /\
    get self2 w1 = (Return (Data PyNone, self2), w2) /\
    _result self2 = EmptyData.
Proof.
  intros Hrs Hkey Hc Hc2 Hid get. subst get.
  eexists _, _, _. unfold AsyncData_get, bind. cbn [negb].
  rewrite (AsyncData__get_hit _ _ _ _ Hc Hrs Hkey). cbn [is_EmptyData negb].
  split; [reflexivity|]. split; [reflexivity|].
  rewrite (AsyncData__get_miss self2 _
             (snd (DataStore_get (task_id (command self)) rs)) Hc2
             (result_store_update _ _)).
  - cbn [is_EmptyData negb]. split; [reflexivity | exact Hc2].
  - rewrite Hid. apply lookup_delete_eq.
Qed.

(** X7: a blocking [get] never reports "not ready": whenever it returns,
    it returns a value, and that value is in the handle's cache. *)
Theorem blocking_get_returns_a_value
    fuel timeout backoff max_delay rot self w res self' w' :
  AsyncData_get fuel true timeout backoff max_delay rot self w =
    (Return (res, self'), w') ->
  exists v, res = Data v /\ _result self' = Data v.
Proof.
  unfold AsyncData_get, bind. cbn [negb]. unfold time_time. intros Hloop.
  destruct (get_loop_answer _ _ _ _ _ _ _ _ _ _ _ _ Hloop) as [-> Hne].
  destruct (_result self') as [|v]; [contradiction|]. exists v. auto.
Qed.

Lemma AsyncData__get_outcome self w :
  (exists res self' w',
      AsyncData__get self w = (Return (res, self'), w') /\
      command self' = command self /\
      task_store (invoker w') = task_store (invoker w)) \/
  AsyncData__get self w = (Raise DataStoreGetException, w).
Proof.
  destruct (_result self) as [|v] eqn:Hc.
  - destruct (result_store (invoker w)) as [rs|] eqn:Hrs.
    + left. destruct (results rs !! task_id (command self)) as [b|] eqn:Hkey.
      * rewrite (AsyncData__get_hit _ _ _ _ Hc Hrs Hkey). eexists _, _, _. auto.
      * rewrite (AsyncData__get_miss _ _ _ Hc Hrs Hkey). eexists _, _, _. auto.
    + right. unfold AsyncData__get, bind. rewrite Hc. cbn [is_EmptyData].
      rewrite (Invoker__get_unconfigured _ _ _ Hrs). reflexivity.
  - left. rewrite (AsyncData__get_cached _ _ _ Hc). eexists _, _, _. auto.
Qed.

Lemma get_loop_without_timeout timeout backoff max_delay rot start fuel :
  timeout_set timeout = false ->
  forall delay self w,
  fst (get_loop fuel timeout backoff max_delay rot start delay self w) <>
    Raise DataStoreTimeout.
Proof.
  intros Hoff. induction fuel as [|fuel IH]; intros delay self w;
    cbn [get_loop]; destruct (_result self) as [|v]; cbn [is_EmptyData];
    try discriminate.
  unfold bind at 1. unfold time_time. rewrite Hoff. cbn [andb].
  unfold bind at 1.
  destruct (AsyncData__get_outcome self w) as [(res & self' & w' & -> & _) | ->];
    [|discriminate].
  destruct (is_EmptyData res); [unfold bind, time_sleep|]; apply IH.
Qed.

(** X8: [DataStoreTimeout] comes from the timeout alone: a [get] that is
    not blocking, or that has no timeout ([None], or [0], which Python
    takes for false), never raises it, however long it polls. *)
Theorem get_without_timeout_never_times_out
    fuel blocking timeout backoff max_delay rot self w :
  blocking = false \/ timeout_set timeout = false ->
  fst (AsyncData_get fuel blocking timeout backoff max_delay rot self w) <>
    Raise DataStoreTimeout.
Proof.
  intros Hwhy. unfold AsyncData_get. destruct blocking; cbn [negb].
  - destruct Hwhy as [|Hoff]; [discriminate|].
    unfold bind, time_time. apply get_loop_without_timeout. exact Hoff.
  - unfold bind.
    destruct (AsyncData__get_outcome self w) as [(res & self' & w' & -> & _) | ->];
      [|discriminate].
    destruct (is_EmptyData res); discriminate.
Qed.

Lemma get_loop_timeout_revokes timeout backoff max_delay start fuel :
  forall delay self w w',
  get_loop fuel timeout backoff max_delay true start delay self w =
    (Raise DataStoreTimeout, w') ->
  stored w' (revoke_id (command self)) =
    Some (pickle_dumps (revoke_record None false)).
Proof.
  induction fuel as [|fuel IH]; intros delay self w w';
    cbn [get_loop]; destruct (_result self) as [|v]; cbn [is_EmptyData];
    try discriminate.
  unfold bind at 1. unfold time_time.
  destruct (timeout_set timeout &&
            Qle_bool (timeout_value timeout) (clock w - start)).
  - unfold bind, raise, AsyncData_revoke.
    destruct (Invoker_revoke (command self) None false w) as [[[]|e|] w1] eqn:Hrev.
    + intros [= <-].
      destruct (revoke_returned _ _ _ _ _ Hrev) as (rs & _ & ->).
      rewrite stored_update. apply lookup_insert_eq.
    + intros [= -> <-]. revert Hrev.
      destruct (task_store (invoker w)) as [ts|] eqn:Hts.
      * rewrite (revoke_with_task_store _ _ _ _ _ Hts).
        destruct (result_store (invoker w)) as [rs|] eqn:Hrs.
        -- rewrite (Invoker__put_configured _ _ _ _ Hrs). discriminate.
        -- rewrite (Invoker__put_unconfigured _ _ _ Hrs). discriminate.
      * rewrite (revoke_without_task_store _ _ _ _ Hts). discriminate.
    + discriminate.
  - unfold bind at 1.
    destruct (AsyncData__get_outcome self w)
      as [(res & self' & w1 & -> & Hcmd & _) | ->]; [|discriminate].
    rewrite <- Hcmd.
    destruct (is_EmptyData res); [unfold bind, time_sleep|]; apply IH.
Qed.

(** X9: with [revoke_on_timeout], a blocking [get] that gives up with
    [DataStoreTimeout] has revoked the command first: the store then holds
    the indefinite revoke record under the command's [revoke_id]. *)
Theorem timeout_with_revoke_leaves_record
    fuel timeout backoff max_delay self w w' :
  AsyncData_get fuel true timeout backoff max_delay true self w =
    (Raise DataStoreTimeout, w') ->
  stored w' (revoke_id (command self)) =
    Some (pickle_dumps (revoke_record None false)).
Proof.
  unfold AsyncData_get, bind. cbn [negb]. unfold time_time.
  apply get_loop_timeout_revokes.
Qed.

(** *** A blocking [get] with a timeout gives up *)

(** The delay a loop iteration sleeps for, after the [max_delay] cap. *)
Lemma capped_delay_bounds (m delay max_delay : Q) :
  (m <= delay)%Q -> (m <= max_delay)%Q ->
  (m <= (if Qle_bool delay max_delay then delay else max_delay))%Q.
Proof.
  intros Hd Hm. destruct (Qle_bool delay max_delay); assumption.
Qed.

Lemma count_succ (n : nat) (m : Q) :
  (inject_Z (Z.of_nat (S n)) * m == inject_Z (Z.of_nat n) * m + m)%Q.
Proof.
  rewrite Nat2Z.inj_succ. unfold Z.succ. rewrite inject_Z_plus. ring.
Qed.

Lemma give_up_step rot self w rs :
  result_store (invoker w) = Some rs ->
  rot = false \/ is_Some (task_store (invoker w)) ->
  exists w',
    bind (B := maybe pyval * AsyncData ustate)
         (if rot then AsyncData_revoke self else ret tt)
         (fun _ => raise DataStoreTimeout) w = (Raise DataStoreTimeout, w') /\
    clock w' = clock w.
Proof.
  intros Hrs Hrot. destruct rot.
  - destruct Hrot as [|[ts Hts]]; [discriminate|].
    unfold bind, AsyncData_revoke.
    rewrite (revoke_with_task_store _ _ _ _ _ Hts),
      (Invoker__put_configured _ _ _ _ Hrs).
    eexists. split; reflexivity.
  - eexists. split; reflexivity.
Qed.

Lemma get_loop_unfold fuel timeout backoff max_delay rot start delay self :
  _result self = EmptyData ->
  get_loop (S fuel) timeout backoff max_delay rot start delay self =
    bind time_time (fun now =>
      if timeout_set timeout && Qle_bool (timeout_value timeout) (now - start)
      then bind (if rot then AsyncData_revoke self else ret tt)
                (fun _ => raise DataStoreTimeout)
      else
        let delay := if Qle_bool delay max_delay then delay else max_delay in
        bind (AsyncData__get self) (fun '(res, self') =>
          if is_EmptyData res then
            bind (time_sleep delay) (fun _ =>
              get_loop fuel timeout backoff max_delay rot start
                (delay * backoff) self')
          else
            get_loop fuel timeout backoff max_delay rot start delay self')).
Proof.
  intros Hc. cbn [get_loop]. rewrite Hc. reflexivity.
Qed.

Lemma get_loop_gives_up (t backoff max_delay m start : Q) rot self :
  _result self = EmptyData ->
  (0 < t)%Q -> (1 <= backoff)%Q -> (0 < m)%Q -> (m <= max_delay)%Q ->
  forall (n : nat) (delay : Q) w rs,
  result_store (invoker w) = Some rs ->
  results rs !! task_id (command self) = None ->
  rot = false \/ is_Some (task_store (invoker w)) ->
  (m <= delay)%Q ->
  (t - (clock w - start) <= inject_Z (Z.of_nat n) * m)%Q ->
  exists w',
    get_loop (S n) (Some t) backoff max_delay rot start delay self w =
      (Raise DataStoreTimeout, w') /\
    (t <= clock w' - start)%Q.
Proof.
  intros Hc Ht Hb Hm Hmax.
  assert (timeout_set (Some t) = true) as Hset.
  { cbn. apply negb_true_iff, not_true_iff_false. intros Heq.
    apply Qeq_bool_iff in Heq. lra. }
  induction n as [|n IH]; intros delay w rs Hrs Hkey Hrot Hd Hleft;
    rewrite (get_loop_unfold _ _ _ _ _ _ _ _ Hc);
    unfold bind at 1; unfold time_time; rewrite Hset; cbn [andb timeout_value].
  - change (inject_Z (Z.of_nat 0)) with 0%Q in Hleft.
    assert (t <= clock w - start)%Q as Hout by lra.
    assert (Qle_bool t (clock w - start) = true) as ->
      by (apply Qle_bool_iff; exact Hout).
    destruct (give_up_step rot self w rs Hrs Hrot) as (w' & -> & Hclock).
    exists w'. split; [reflexivity|]. rewrite Hclock. exact Hout.
  - destruct (Qle_bool t (clock w - start)) eqn:Hout.
    + apply Qle_bool_iff in Hout.
      destruct (give_up_step rot self w rs Hrs Hrot) as (w' & -> & Hclock).
      exists w'. split; [reflexivity|]. rewrite Hclock. exact Hout.
    + unfold bind at 1. rewrite (AsyncData__get_miss _ _ _ Hc Hrs Hkey).
      cbn [is_EmptyData]. unfold bind at 1. unfold time_sleep.
      set (slept := if Qle_bool delay max_delay then delay else max_delay).
      assert (m <= slept)%Q as Hslept by (apply capped_delay_bounds; assumption).
      apply (IH (slept * backoff)%Q _
               (snd (DataStore_get (task_id (command self)) rs))).
      * reflexivity.
      * apply lookup_delete_eq.
      * destruct Hrot as [-> | Hts]; [left; reflexivity | right; exact Hts].
      * assert (0 <= slept * (backoff - 1))%Q
          by (apply Qmult_le_0_compat; lra).
        lra.
      * rewrite count_succ in Hleft. cbn [clock].
        change (clock (update_result_store
                         (snd (DataStore_get (task_id (command self)) rs)) w))
          with (clock w).
        clear IH. clearbody slept.
        set (k := (inject_Z (Z.of_nat n) * m)%Q) in *. clearbody k.
        lra.
Qed.

(** X10: a blocking [get] with a positive timeout does not hang on a task
    that never finishes.  With no record in the store, nothing cached,
    [backoff >= 1] and a positive [max_delay], the polling loop ends after
    finitely many iterations by raising [DataStoreTimeout], at a moment when
    at least [timeout] has passed on the clock since the call. *)
Theorem blocking_get_gives_up_after_timeout
    (t backoff max_delay : Q) rot self w rs :
  _result self = EmptyData ->
  result_store (invoker w) = Some rs ->
  results rs !! task_id (command self) = None ->
  rot = false \/ is_Some (task_store (invoker w)) ->
  (0 < t)%Q -> (1 <= backoff)%Q -> (0 < max_delay)%Q ->
  exists fuel w',
    AsyncData_get fuel true (Some t) backoff max_delay rot self w =
      (Raise DataStoreTimeout, w') /\
    (t <= clock w' - clock w)%Q.
Proof.
  intros Hc Hrs Hkey Hrot Ht Hb Hmax.
  set (m := if Qle_bool (1 # 10) max_delay then 1 # 10 else max_delay).
  assert (0 < m)%Q as Hm by (subst m; destruct (Qle_bool (1 # 10) max_delay); lra).
  assert (m <= max_delay)%Q as Hmm.
  { subst m. destruct (Qle_bool (1 # 10) max_delay) eqn:E; [|lra].
    apply Qle_bool_iff in E. exact E. }
  assert (m <= 1 # 10)%Q as Hfirst.
  { subst m. destruct (Qle_bool (1 # 10) max_delay) eqn:E; [lra|].
    apply not_true_iff_false in E. rewrite Qle_bool_iff in E. lra. }
  destruct (Qarchimedean (t / m)) as [p Hp].
  assert (t <= inject_Z (Z.of_nat (Pos.to_nat p)) * m)%Q as Hn.
  { rewrite positive_nat_Z.
    assert (t == t / m * m)%Q as E by (field; lra).
    rewrite E at 1. apply Qlt_le_weak. apply Qmult_lt_compat_r; [exact Hm|].
    exact Hp. }
  destruct (get_loop_gives_up t backoff max_delay m (clock w) rot self
              Hc Ht Hb Hm Hmm (Pos.to_nat p) (1 # 10) w rs Hrs Hkey Hrot Hfirst)
    as (w' & Hrun & Hlate).
  { lra. }
  exists (S (Pos.to_nat p)), w'. unfold AsyncData_get, bind. cbn [negb].
  unfold time_time. auto.
Qed.

End ResultProperties.

Section RevokeProperties.

Context {ustate : Type}.

Implicit Types (w : World ustate) (command : QueueCommand ustate)
  (self : AsyncData ustate) (rs : DataStore).

Lemma revoke_id_inj command command' :
  revoke_id command = revoke_id command' -> task_id command = task_id command'.
Proof. unfold revoke_id. cbn. intros [= H]. exact H. Qed.

Lemma datetime_gt_answer revoke_until dt w w' :
  fst (datetime_gt (ustate := ustate) revoke_until dt w) =
  fst (datetime_gt (ustate := ustate) revoke_until dt w').
Proof. destruct revoke_until, dt; reflexivity. Qed.

(** What [is_revoked] answers is decided by whether a result store is
    configured and by the record under the command's [revoke_id]. *)
Lemma is_revoked_answer_by_record command dt preserve w w' :
  (is_Some (result_store (invoker w)) <-> is_Some (result_store (invoker w'))) ->
  stored w (revoke_id command) = stored w' (revoke_id command) ->
  fst (Invoker_is_revoked command dt preserve w) =
  fst (Invoker_is_revoked command dt preserve w').
Proof.
  intros Hconf Hsame. unfold stored in Hsame.
  destruct (result_store (invoker w)) as [rs|] eqn:Hrs;
    destruct (result_store (invoker w')) as [rs'|] eqn:Hrs'.
  - destruct (results rs !! revoke_id command) as [b|] eqn:Hkey.
    + symmetry in Hsame.
      destruct (unpack_pair (pickle_loads b)) as [[u o]|e] eqn:Hpair.
      * rewrite (is_revoked_unpacked _ _ _ _ _ _ _ _ Hrs Hkey Hpair),
          (is_revoked_unpacked _ _ _ _ _ _ _ _ Hrs' Hsame Hpair). cbv zeta.
        destruct (truthy o); [reflexivity|].
        destruct (is_None u); [reflexivity|]. apply datetime_gt_answer.
      * rewrite (is_revoked_malformed _ _ _ _ _ _ _ Hrs Hkey Hpair),
          (is_revoked_malformed _ _ _ _ _ _ _ Hrs' Hsame Hpair). reflexivity.
    + symmetry in Hsame.
      rewrite (is_revoked_no_record _ _ _ _ _ Hrs Hkey),
        (is_revoked_no_record _ _ _ _ _ Hrs' Hsame). reflexivity.
  - destruct Hconf as [Hconf _]. destruct Hconf as [? [=]]. eauto.
  - destruct Hconf as [_ Hconf]. destruct Hconf as [? [=]]. eauto.
  - rewrite (is_revoked_unconfigured _ _ _ _ Hrs),
      (is_revoked_unconfigured _ _ _ _ Hrs'). reflexivity.
Qed.

(** X11: [revoke] followed by [restore] is a round trip on the records:
    when the command had no revoke record before, the store holds exactly
    the records it held before, whatever kind of revoke it was. *)
Theorem revoke_then_restore_round_trip
    w w1 command revoke_until revoke_once :
  Invoker_revoke command revoke_until revoke_once w = (Return tt, w1) ->
  stored w (revoke_id command) = None ->
  exists w2,
    Invoker_restore command w1 = (Return tt, w2) /\
    forall key, stored w2 key = stored w key.
Proof.
  intros Hrevoke Hfresh.
  destruct (revoke_returned _ _ _ _ _ Hrevoke) as (rs & Hrs & ->).
  eexists. split.
  - apply (restore_configured _ _ _ (result_store_update _ _)).
  - intros key. rewrite stored_update. unfold stored in *. rewrite Hrs in *.
    cbn [DataStore_get DataStore_put snd results].
    rewrite delete_insert_id by exact Hfresh. reflexivity.
Qed.

(** X12: the latest [revoke] wins: a second [revoke] of the same command
    replaces the record of the first, and no other key changes. *)
Theorem latest_revoke_wins w w1 command until1 once1 until2 once2 :
  Invoker_revoke command until1 once1 w = (Return tt, w1) ->
  exists w2,
    Invoker_revoke command until2 once2 w1 = (Return tt, w2) /\
    stored w2 (revoke_id command) =
      Some (pickle_dumps (revoke_record until2 once2)) /\
    forall key, key <> revoke_id command -> stored w2 key = stored w key.
Proof.
  intros Hrevoke.
  destruct (revoke_returned _ _ _ _ _ Hrevoke) as (rs & Hrs & ->).
  assert (is_Some (task_store (invoker w))) as [ts Hts].
  { destruct (task_store (invoker w)) as [ts|] eqn:Hts; [eauto|].
    rewrite (revoke_without_task_store _ _ _ _ Hts) in Hrevoke. discriminate. }
  eexists. split.
  - rewrite (revoke_with_task_store _ ts); [|exact Hts].
    apply (Invoker__put_configured _ _ _ _ (result_store_update _ _)).
  - rewrite stored_update. split; [apply lookup_insert_eq|].
    intros key Hne. rewrite stored_update. unfold stored. rewrite Hrs.
    cbn [DataStore_put results].
    rewrite !lookup_insert_ne by congruence. reflexivity.
Qed.

(** X13: revocation is per task id: revoking one command does not change
    what [is_revoked] answers for a command with another [task_id]. *)
Theorem revoke_leaves_other_tasks_alone
    w w1 command command' revoke_until revoke_once dt preserve :
  task_id command <> task_id command' ->
  Invoker_revoke command revoke_until revoke_once w = (Return tt, w1) ->
  fst (Invoker_is_revoked command' dt preserve w1) =
  fst (Invoker_is_revoked command' dt preserve w).
Proof.
  intros Hne Hrevoke.
  destruct (revoke_returned _ _ _ _ _ Hrevoke) as (rs & Hrs & ->).
  apply is_revoked_answer_by_record.
  - rewrite result_store_update, Hrs. split; eauto.
  - rewrite stored_update. unfold stored. rewrite Hrs. cbn [DataStore_put results].
    apply lookup_insert_ne. intros Heq. apply Hne, revoke_id_inj. exact Heq.
Qed.

(** X14: the instances of a periodic command class share one revocation.
    Created without an explicit id, each gets the class name for its
    [task_id], so [revoke], [restore] and [is_revoked] through one instance
    are the same operations as through any other. *)
Theorem periodic_instances_share_revocation
    (cls : command_class ustate) uuid uuid' data data' execute_time execute_time'
    retries retries' retry_delay retry_delay' :
  class_periodic cls = true ->
  let one := QueueCommand_init cls uuid data None execute_time retries retry_delay in
  let other :=
    QueueCommand_init cls uuid' data' None execute_time' retries' retry_delay' in
  task_id one = class_name cls /\
  (forall revoke_until revoke_once,
      Invoker_revoke one revoke_until revoke_once =
      Invoker_revoke other revoke_until revoke_once) /\
  Invoker_restore one = Invoker_restore other /\
  (forall dt preserve,
      Invoker_is_revoked one dt preserve = Invoker_is_revoked other dt preserve).
Proof.
  intros Hper one other.
  assert (task_id one = class_name cls) as Hone
    by (subst one; cbn; unfold create_id; rewrite Hper; reflexivity).
  assert (revoke_id other = revoke_id one) as Hid
    by (subst one other; unfold revoke_id; cbn; unfold create_id;
        rewrite Hper; reflexivity).
  split; [exact Hone|].
  unfold Invoker_is_revoked, Invoker_revoke, Invoker_restore. rewrite Hid. auto.
Qed.

(** X15: [is_revoked] called without a time cannot judge a time-bounded
    revoke: after [revoke(command, revoke_until=T)] the default [dt=None]
    reaches the comparison [revoke_until > None], which raises
    [TypeError]. *)
Theorem is_revoked_needs_a_time_for_until_records w w1 command T preserve :
  Invoker_revoke command (Some T) false w = (Return tt, w1) ->
  fst (Invoker_is_revoked command None preserve w1) =
    Raise (TypeError "can't compare datetime").
Proof.
  intros Hrevoke.
  destruct (revoke_returned _ _ _ _ _ Hrevoke) as (rs & Hrs & ->).
  rewrite (is_revoked_record _ _ _ _ _ (PyDatetime T) (PyBool false)
             (result_store_update _ _)); [reflexivity|].
  apply lookup_insert_eq.
Qed.

(** X16: a task that raises leaves no result behind.  [execute] passes the
    exception of the user code on, having changed nothing but the user
    state; a client polling for the result afterwards is told [None], as
    before the task ran. *)
Theorem failed_execute_stores_nothing w rs command e u' :
  run command (user w) = (Raise e, u') ->
  result_store (invoker w) = Some rs ->
  results rs !! task_id command = None ->
  exists w',
    Invoker_execute (Command command) w = (Raise e, w') /\
    invoker w' = invoker w /\
    user w' = u' /\
    answer (fst (AsyncData_get 0 false None (115 # 100) 1 false
                   (AsyncData_init command) w')) = Return (Data PyNone).
Proof.
  intros Hrun Hrs Hkey. exists (update_user u' w).
  split; [|split; [reflexivity|split; [reflexivity|]]].
  - unfold Invoker_execute, bind, self_invoker, command_execute.
    rewrite Hrun. reflexivity.
  - unfold AsyncData_get, bind. cbn [negb].
    rewrite (AsyncData__get_miss (AsyncData_init command) (update_user u' w) rs);
      [reflexivity | reflexivity | exact Hrs | exact Hkey].
Qed.

End RevokeProperties.

Section ScheduleProperties.

Context {ustate : Type}.

Implicit Types (command cmd : QueueCommand ustate)
  (sched : CommandSchedule ustate).

Variable decode : blob -> QueueCommand ustate + string.

Lemma is_pending_true sched cmd :
  CommandSchedule_is_pending sched cmd = true <->
  is_Some (_schedule sched !! task_id cmd).
Proof. unfold CommandSchedule_is_pending. apply bool_decide_eq_true. Qed.

Lemma is_pending_false sched cmd :
  CommandSchedule_is_pending sched cmd = false <->
  _schedule sched !! task_id cmd = None.
Proof.
  unfold CommandSchedule_is_pending. rewrite bool_decide_eq_false.
  rewrite <- eq_None_not_Some. reflexivity.
Qed.

Lemma add_lookup sched cmd :
  _schedule (CommandSchedule_add sched cmd) !! task_id cmd =
    Some (default cmd (_schedule sched !! task_id cmd)) /\
  forall id, id <> task_id cmd ->
    _schedule (CommandSchedule_add sched cmd) !! id = _schedule sched !! id.
Proof.
  unfold CommandSchedule_add.
  destruct (CommandSchedule_is_pending sched cmd) eqn:Hp; cbn [negb].
  - apply is_pending_true in Hp. destruct Hp as [old Hold].
    rewrite Hold. auto.
  - apply is_pending_false in Hp. rewrite Hp. cbn [_schedule default].
    split; [apply lookup_insert_eq|].
    intros id Hne. apply lookup_insert_ne. congruence.
Qed.

Lemma remove_lookup sched cmd :
  _schedule (CommandSchedule_remove sched cmd) !! task_id cmd = None /\
  forall id, id <> task_id cmd ->
    _schedule (CommandSchedule_remove sched cmd) !! id = _schedule sched !! id.
Proof.
  unfold CommandSchedule_remove.
  destruct (CommandSchedule_is_pending sched cmd) eqn:Hp.
  - split; [apply lookup_delete_eq|].
    intros id Hne. apply lookup_delete_ne. congruence.
  - apply is_pending_false in Hp. auto.
Qed.

(** X17: [add] never replaces a pending command.  The entry under the
    command's [task_id] is the one that was there first, or the command
    itself when there was none; entries under other ids stay. *)
Theorem add_keeps_the_first sched cmd :
  _schedule (CommandSchedule_add sched cmd) !! task_id cmd =
    Some (default cmd (_schedule sched !! task_id cmd)) /\
  forall id, id <> task_id cmd ->
    _schedule (CommandSchedule_add sched cmd) !! id = _schedule sched !! id.
Proof. apply add_lookup. Qed.

(** X18: [remove] undoes [add]: for a command whose id was not pending,
    adding and then removing it, also through another command object with
    the same [task_id], gives back the schedule as it was. *)
Theorem add_then_remove_round_trip sched cmd cmd' :
  CommandSchedule_is_pending sched cmd = false ->
  task_id cmd' = task_id cmd ->
  CommandSchedule_is_pending (CommandSchedule_add sched cmd) cmd' = true /\
  CommandSchedule_remove (CommandSchedule_add sched cmd) cmd' = sched.
Proof.
  intros Hp Hid. pose proof Hp as Hnone. apply is_pending_false in Hnone.
  assert (CommandSchedule_is_pending (CommandSchedule_add sched cmd) cmd' = true)
    as Hnow.
  { apply is_pending_true. rewrite Hid.
    rewrite (proj1 (add_lookup sched cmd)). eauto. }
  split; [exact Hnow|].
  unfold CommandSchedule_remove. rewrite Hnow.
  unfold CommandSchedule_add. rewrite Hp. cbn [negb key_name _schedule].
  rewrite Hid, delete_insert_id by exact Hnone.
  destruct sched. reflexivity.
Qed.

(** X19: [remove] works by task id alone: afterwards the id of the
    command is not pending, whichever command object was stored under it,
    and the entries under all other ids are as before. *)
Theorem remove_clears_the_id sched cmd :
  CommandSchedule_is_pending (CommandSchedule_remove sched cmd) cmd = false /\
  forall id, id <> task_id cmd ->
    _schedule (CommandSchedule_remove sched cmd) !! id = _schedule sched !! id.
Proof.
  split; [|apply remove_lookup].
  apply is_pending_false. apply remove_lookup.
Qed.

Lemma add_keyed sched cmd :
  keyed_by_task_id sched -> keyed_by_task_id (CommandSchedule_add sched cmd).
Proof.
  intros Hk id c. destruct (decide (id = task_id cmd)) as [->|Hne].
  - rewrite (proj1 (add_lookup sched cmd)).
    destruct (_schedule sched !! task_id cmd) as [old|] eqn:Hold; cbn.
    + intros [= <-]. apply (Hk _ _ Hold).
    + intros [= <-]. reflexivity.
  - rewrite (proj2 (add_lookup sched cmd) id Hne). apply Hk.
Qed.

Lemma load_commands_keyed messages : forall sched,
  keyed_by_task_id sched ->
  keyed_by_task_id (CommandSchedule_load_commands decode sched messages).
Proof.
  induction messages as [|msg rest IH]; intros sched Hk; cbn; [exact Hk|].
  destruct (decode msg); apply IH; [apply add_keyed|]; exact Hk.
Qed.

Lemma remove_keyed sched cmd :
  keyed_by_task_id sched -> keyed_by_task_id (CommandSchedule_remove sched cmd).
Proof.
  intros Hk id c. destruct (decide (id = task_id cmd)) as [->|Hne].
  - rewrite (proj1 (remove_lookup sched cmd)). discriminate.
  - rewrite (proj2 (remove_lookup sched cmd) id Hne). apply Hk.
Qed.

(** X20: the schedule is keyed by task id, and stays so: after any series
    of [add], [remove] and [load_commands] calls on a new schedule, every
    command in the dict sits under its own [task_id]. *)
Theorem schedule_stays_keyed_by_task_id key_name calls :
  keyed_by_task_id
    (schedule_steps decode (CommandSchedule_init key_name) calls).
Proof.
  unfold schedule_steps.
  assert (keyed_by_task_id (CommandSchedule_init (ustate := ustate) key_name))
    as Hinit.
  { intros id c. cbn. rewrite lookup_empty. discriminate. }
  revert Hinit. generalize (CommandSchedule_init (ustate := ustate) key_name).
  induction calls as [|call rest IH]; intros sched Hk; cbn [fold_left];
    [exact Hk|].
  apply IH. destruct call as [cmd|cmd|messages]; cbn [schedule_step].
  - apply add_keyed. exact Hk.
  - apply remove_keyed. exact Hk.
  - apply load_commands_keyed. exact Hk.
Qed.

(** X21: [load_commands] passes over what the registry rejects and never
    displaces a pending command: under each id the schedule afterwards
    holds the command that was pending there, or else the first command
    with that id that the messages decode to, or else nothing. *)
Theorem load_commands_adds_what_decodes messages : forall sched id,
  _schedule (CommandSchedule_load_commands decode sched messages) !! id =
    match _schedule sched !! id with
    | Some pending => Some pending
    | None => first_with_id decode id messages
    end.
Proof.
  induction messages as [|msg rest IH]; intros sched id.
  - cbn. destruct (_schedule sched !! id); reflexivity.
  - cbn [CommandSchedule_load_commands first_with_id].
    destruct (decode msg) as [c|text]; [|apply IH].
    rewrite IH. case_bool_decide as Hid.
    + subst id. rewrite (proj1 (add_lookup sched c)).
      destruct (_schedule sched !! task_id c); reflexivity.
    + rewrite (proj2 (add_lookup sched c) id) by congruence.
      reflexivity.
Qed.

(** X22: [commands] lists exactly the pending commands, each entry of the
    dict once. *)
Theorem commands_lists_the_pending sched :
  (forall cmd,
      In cmd (CommandSchedule_commands sched) <->
      exists id, _schedule sched !! id = Some cmd) /\
  length (CommandSchedule_commands sched) = size (_schedule sched).
Proof.
  unfold CommandSchedule_commands. split.
  - intros cmd. rewrite in_map_iff. split.
    + intros ([id c] & <- & Hin). exists id.
      apply elem_of_map_to_list. apply list_elem_of_In. exact Hin.
    + intros [id Hid]. exists (id, cmd). split; [reflexivity|].
      apply list_elem_of_In. apply elem_of_map_to_list. exact Hid.
  - rewrite length_map. apply length_map_to_list.
Qed.

(** X23: a command that is due stays due: if [should_run] holds at one
    time it holds at every later time, whatever the clock reads (the clock
    is consulted only when no time is passed in). *)
Theorem should_run_is_monotone cmd (t t' now now' : Z) :
  CommandSchedule_should_run cmd (Some t) now = true ->
  (t <= t')%Z ->
  CommandSchedule_should_run cmd (Some t') now' = true.
Proof.
  unfold CommandSchedule_should_run.
  destruct (execute_time cmd) as [et|]; [|reflexivity].
  rewrite !Z.leb_le. lia.
Qed.

(** X24: [__eq__] is an equivalence on commands that looks at the id, the
    execute time and the class only: commands that differ in their data,
    retries or retry delay alone are equal. *)
Theorem QueueCommand_eq_is_an_equivalence :
  Equivalence (fun a b : QueueCommand ustate => QueueCommand_eq a b = true) /\
  forall (a : QueueCommand ustate) data' retries' retry_delay',
    QueueCommand_eq a
      {| type_name := type_name a; data := data'; task_id := task_id a;
         execute_time := execute_time a; retries := retries';
         retry_delay := retry_delay'; periodic := periodic a; run := run a |}
    = true.
Proof.
  unfold QueueCommand_eq. split; [split|].
  - intros a. rewrite !bool_decide_eq_true_2 by reflexivity. reflexivity.
  - intros a b. rewrite !andb_true_iff, !bool_decide_eq_true.
    intuition congruence.
  - intros a b c. rewrite !andb_true_iff, !bool_decide_eq_true.
    intuition congruence.
  - intros. cbn. rewrite !bool_decide_eq_true_2 by reflexivity. reflexivity.
Qed.

End ScheduleProperties.

Section CanRunProperties.

Context {ustate : Type}.

(** X25: the scheduler's [can_run] uses up a one-shot revoke: after
    [revoke(command, revoke_once=True)] the first [can_run] refuses the
    command and the second lets it run, at any times. *)
Theorem can_run_after_revoke_once
    (w w1 : World ustate) (command : QueueCommand ustate) revoke_until dt dt' :
  Invoker_revoke command revoke_until true w = (Return tt, w1) ->
  exists w2 w3,
    CommandSchedule_can_run command dt w1 = (Return false, w2) /\
    CommandSchedule_can_run command dt' w2 = (Return true, w3).
Proof.
  intros Hrevoke.
  destruct (revoke_returned _ _ _ _ _ Hrevoke) as (rs & Hrs & ->).
  set (rs1 := DataStore_put (revoke_id command)
                (pickle_dumps (revoke_record revoke_until true)) rs).
  assert (results rs1 !! revoke_id command =
            Some (pickle_dumps (revoke_record revoke_until true))) as Hkey
    by apply lookup_insert_eq.
  eexists _, _. unfold CommandSchedule_can_run, bind.
  rewrite (is_revoked_record (update_result_store rs1 w) rs1 _ _ _ _ _
             (result_store_update _ _) Hkey).
  cbn [truthy negb]. cbv zeta. split; [reflexivity|].
  rewrite (is_revoked_no_record _ (consumed (revoke_id command) rs1));
    [reflexivity | reflexivity | apply lookup_delete_eq].
Qed.

End CanRunProperties.

(** * The further properties on the test suite's fixtures *)

Section MoreInstances.

Import Fixtures SuiteTasks.

Lemma enqueue_queues_the_message_witness :
  always_eager (invoker test_world) = false /\
  (exists w',
      Invoker_enqueue t1 test_world = (Return (Handle fresh_handle), w') /\
      messages (queue (invoker w')) = [get_message_for_command t1] /\
      result_store (invoker w') = Some empty_store /\
      task_store (invoker w') = Some empty_store /\
      user w' = ∅).
Proof.
  assert (always_eager (invoker test_world) = false) as Heager by reflexivity.
  split; [exact Heager|].
  exact (enqueue_queues_the_message test_world t1 Heager).
Defined.

Lemma enqueue_then_dequeue_is_fifo_witness :
  always_eager (invoker test_world) = false /\
  (fst (Invoker_dequeue decode (snd (Invoker_enqueue t1 test_world))) =
     Return (Some t1) /\
   messages (queue (invoker (snd (Invoker_dequeue decode
                                    (snd (Invoker_enqueue t1 test_world)))))) = []).
Proof.
  assert (always_eager (invoker test_world) = false) as Heager by reflexivity.
  split; [exact Heager|].
  exact (enqueue_then_dequeue_is_fifo decode test_world t1 Heager).
Defined.

Lemma dequeue_consumes_what_it_cannot_decode_witness :
  messages (queue (invoker stale_world)) =
    stale_message :: [get_message_for_command t1] /\
  decode stale_message = inr "not found in CommandRegistry" /\
  (fst (Invoker_dequeue decode stale_world) =
     Raise (QueueException "not found in CommandRegistry") /\
   messages (queue (invoker (snd (Invoker_dequeue decode stale_world)))) =
     [get_message_for_command t1] /\
   result_store (invoker (snd (Invoker_dequeue decode stale_world))) =
     result_store (invoker stale_world)).
Proof.
  assert (messages (queue (invoker stale_world)) =
            stale_message :: [get_message_for_command t1]) as Hq by reflexivity.
  assert (decode stale_message = inr "not found in CommandRegistry") as Hbad
    by reflexivity.
  split; [exact Hq|]. split; [exact Hbad|].
  exact (dequeue_consumes_what_it_cannot_decode decode stale_world stale_message
           [get_message_for_command t1] "not found in CommandRegistry" Hq Hbad).
Defined.

Lemma executed_result_reaches_the_handle_witness :
  result_store (invoker test_world) = Some empty_store /\
  periodic t1 = false /\
  run t1 (user test_world) = (Return (PyStr "v"), {["k" := PyStr "v"]}) /\
  (is_None (PyStr "v") = false \/ store_none (invoker test_world) = true) /\
  positive_timeout (Some (1 # 2)) /\
  (exists w2,
      wait 1 (Some (1 # 2)) false finished_world =
        (Return (Data (PyStr "v"), fetched_handle), w2) /\
      stored w2 (task_id t1) = None /\
      clock w2 = clock finished_world).
Proof.
  assert (result_store (invoker test_world) = Some empty_store) as Hrs
    by reflexivity.
  assert (periodic t1 = false) as Hper by reflexivity.
  assert (run t1 (user test_world) = (Return (PyStr "v"), {["k" := PyStr "v"]}))
    as Hrun by reflexivity.
  assert (is_None (PyStr "v") = false \/ store_none (invoker test_world) = true)
    as Hstored by (left; reflexivity).
  assert (positive_timeout (Some (1 # 2))) as Hpos by reflexivity.
  split; [exact Hrs|]. split; [exact Hper|]. split; [exact Hrun|].
  split; [exact Hstored|]. split; [exact Hpos|].
  exact (executed_result_reaches_the_handle test_world empty_store t1 (PyStr "v")
           {["k" := PyStr "v"]} 0 true (Some (1 # 2)) (115 # 100) 1 false
           Hrs Hper Hrun Hstored Hpos).
Defined.

Lemma result_is_fetched_once_witness :
  result_store (invoker finished_world) = Some finished_store /\
  results finished_store !! task_id (command fresh_handle) =
    Some (pickle_dumps (PyStr "v")) /\
  _result fresh_handle = EmptyData /\
  _result (AsyncData_init t1_again) = EmptyData /\
  task_id (command (AsyncData_init t1_again)) = task_id (command fresh_handle) /\
  (exists self1 w1 w2,
      poll fresh_handle finished_world = (Return (Data (PyStr "v"), self1), w1) /\
      _result self1 = Data (PyStr "v") /\
      poll (AsyncData_init t1_again) w1 =
        (Return (Data PyNone, AsyncData_init t1_again), w2) /\
      _result (AsyncData_init t1_again) = EmptyData).
Proof.
  assert (result_store (invoker finished_world) = Some finished_store) as Hrs
    by reflexivity.
  assert (results finished_store !! task_id (command fresh_handle) =
            Some (pickle_dumps (PyStr "v"))) as Hkey by reflexivity.
  assert (_result fresh_handle = EmptyData) as Hc by reflexivity.
  assert (_result (AsyncData_init t1_again) = EmptyData) as Hc2 by reflexivity.
  assert (task_id (command (AsyncData_init t1_again)) =
            task_id (command fresh_handle)) as Hid by reflexivity.
  split; [exact Hrs|]. split; [exact Hkey|]. split; [exact Hc|].
  split; [exact Hc2|]. split; [exact Hid|].
  exact (result_is_fetched_once finished_world finished_store
           (pickle_dumps (PyStr "v")) fresh_handle (AsyncData_init t1_again)
           Hrs Hkey Hc Hc2 Hid).
Defined.

Lemma blocking_get_returns_a_value_witness :
  wait 1 None false finished_world =
    (Return (Data (PyStr "v"), fetched_handle),
     snd (wait 1 None false finished_world)) /\
  (exists v, Data (PyStr "v") = Data v /\ _result fetched_handle = Data v).
Proof.
  assert (wait 1 None false finished_world =
            (Return (Data (PyStr "v"), fetched_handle),
             snd (wait 1 None false finished_world))) as Hget by reflexivity.
  split; [exact Hget|].
  exact (blocking_get_returns_a_value 1 None (115 # 100) 1 false fresh_handle
           finished_world (Data (PyStr "v")) fetched_handle
           (snd (wait 1 None false finished_world)) Hget).
Defined.

Lemma get_without_timeout_never_times_out_witness :
  (true = false \/ timeout_set (Some 0%Q) = false) /\
  fst (wait 5 (Some 0%Q) true test_world) <> Raise DataStoreTimeout.
Proof.
  assert (true = false \/ timeout_set (Some 0%Q) = false) as Hwhy
    by (right; reflexivity).
  split; [exact Hwhy|].
  exact (get_without_timeout_never_times_out 5 true (Some 0%Q) (115 # 100) 1
           true fresh_handle test_world Hwhy).
Defined.

Lemma timeout_with_revoke_leaves_record_witness :
  wait 2 (Some (1 # 20)) true test_world =
    (Raise DataStoreTimeout, snd (wait 2 (Some (1 # 20)) true test_world)) /\
  stored (snd (wait 2 (Some (1 # 20)) true test_world)) (revoke_id t1) =
    Some (pickle_dumps (revoke_record None false)).
Proof.
  assert (wait 2 (Some (1 # 20)) true test_world =
            (Raise DataStoreTimeout,
             snd (wait 2 (Some (1 # 20)) true test_world))) as Hget
    by reflexivity.
  split; [exact Hget|].
  exact (timeout_with_revoke_leaves_record 2 (Some (1 # 20)) (115 # 100) 1
           fresh_handle test_world
           (snd (wait 2 (Some (1 # 20)) true test_world)) Hget).
Defined.

Lemma blocking_get_gives_up_after_timeout_witness :
  _result fresh_handle = EmptyData /\
  result_store (invoker test_world) = Some empty_store /\
  results empty_store !! task_id (command fresh_handle) = None /\
  (true = false \/ is_Some (task_store (invoker test_world))) /\
  (0 < 1 # 4)%Q /\ (1 <= 115 # 100)%Q /\ (0 < 1)%Q /\
  (exists fuel w',
      wait fuel (Some (1 # 4)) true test_world = (Raise DataStoreTimeout, w') /\
      (1 # 4 <= clock w' - clock test_world)%Q).
Proof.
  assert (_result fresh_handle = EmptyData) as Hc by reflexivity.
  assert (result_store (invoker test_world) = Some empty_store) as Hrs
    by reflexivity.
  assert (results empty_store !! task_id (command fresh_handle) = None) as Hkey
    by reflexivity.
  assert (true = false \/ is_Some (task_store (invoker test_world))) as Hrot
    by (right; eexists; reflexivity).
  assert (0 < 1 # 4)%Q as Ht by reflexivity.
  assert (1 <= 115 # 100)%Q as Hb by (unfold Qle; simpl; lia).
  assert (0 < 1)%Q as Hmax by reflexivity.
  split; [exact Hc|]. split; [exact Hrs|]. split; [exact Hkey|].
  split; [exact Hrot|]. split; [exact Ht|]. split; [exact Hb|].
  split; [exact Hmax|].
  exact (blocking_get_gives_up_after_timeout (1 # 4) (115 # 100) 1 true
           fresh_handle test_world empty_store Hc Hrs Hkey Hrot Ht Hb Hmax).
Defined.

Lemma revoke_then_restore_round_trip_witness :
  Invoker_revoke t1 None false test_world = (Return tt, revoked_world) /\
  stored test_world (revoke_id t1) = None /\
  (exists w2,
      Invoker_restore t1 revoked_world = (Return tt, w2) /\
      forall key, stored w2 key = stored test_world key).
Proof.
  assert (Invoker_revoke t1 None false test_world = (Return tt, revoked_world))
    as Hrevoke by reflexivity.
  assert (stored test_world (revoke_id t1) = None) as Hfresh by reflexivity.
  split; [exact Hrevoke|]. split; [exact Hfresh|].
  exact (revoke_then_restore_round_trip test_world revoked_world t1 None false
           Hrevoke Hfresh).
Defined.

Lemma latest_revoke_wins_witness :
  Invoker_revoke every_hour None true test_world =
    (Return tt, revoked_once_world) /\
  (exists w2,
      Invoker_revoke every_hour (Some 3600%Z) false revoked_once_world =
        (Return tt, w2) /\
      stored w2 (revoke_id every_hour) =
        Some (pickle_dumps (revoke_record (Some 3600%Z) false)) /\
      forall key,
        key <> revoke_id every_hour -> stored w2 key = stored test_world key).
Proof.
  assert (Invoker_revoke every_hour None true test_world =
            (Return tt, revoked_once_world)) as Hrevoke by reflexivity.
  split; [exact Hrevoke|].
  exact (latest_revoke_wins test_world revoked_once_world every_hour None true
           (Some 3600%Z) false Hrevoke).
Defined.

Lemma revoke_leaves_other_tasks_alone_witness :
  task_id t1 <> task_id every_hour /\
  Invoker_revoke t1 None false test_world = (Return tt, revoked_world) /\
  fst (Invoker_is_revoked every_hour (Some 0%Z) false revoked_world) =
    fst (Invoker_is_revoked every_hour (Some 0%Z) false test_world).
Proof.
  assert (task_id t1 <> task_id every_hour) as Hne by (simpl; discriminate).
  assert (Invoker_revoke t1 None false test_world = (Return tt, revoked_world))
    as Hrevoke by reflexivity.
  split; [exact Hne|]. split; [exact Hrevoke|].
  exact (revoke_leaves_other_tasks_alone test_world revoked_world t1 every_hour
           None false (Some 0%Z) false Hne Hrevoke).
Defined.

Lemma periodic_instances_share_revocation_witness :
  class_periodic every_hour_class = true /\
  (task_id (QueueCommand_init every_hour_class "6f1c" PyNone None None 0 0) =
     "queuecmd_every_hour" /\
   (forall revoke_until revoke_once,
       Invoker_revoke
         (QueueCommand_init every_hour_class "6f1c" PyNone None None 0 0)
         revoke_until revoke_once =
       Invoker_revoke
         (QueueCommand_init every_hour_class "a2e0" (PyInt 1) None (Some 5%Z) 3 10)
         revoke_until revoke_once) /\
   Invoker_restore
     (QueueCommand_init every_hour_class "6f1c" PyNone None None 0 0) =
   Invoker_restore
     (QueueCommand_init every_hour_class "a2e0" (PyInt 1) None (Some 5%Z) 3 10) /\
   (forall dt preserve,
       Invoker_is_revoked
         (QueueCommand_init every_hour_class "6f1c" PyNone None None 0 0)
         dt preserve =
       Invoker_is_revoked
         (QueueCommand_init every_hour_class "a2e0" (PyInt 1) None (Some 5%Z) 3 10)
         dt preserve)).
Proof.
  assert (class_periodic every_hour_class = true) as Hper by reflexivity.
  split; [exact Hper|].
  exact (periodic_instances_share_revocation every_hour_class "6f1c" "a2e0"
           PyNone (PyInt 1) None (Some 5%Z) 0%Z 3%Z 0%Z 10%Z Hper).
Defined.

Lemma is_revoked_needs_a_time_for_until_records_witness :
  Invoker_revoke every_hour (Some 3600%Z) false test_world =
    (Return tt, revoked_until_world) /\
  fst (Invoker_is_revoked every_hour None true revoked_until_world) =
    Raise (TypeError "can't compare datetime").
Proof.
  assert (Invoker_revoke every_hour (Some 3600%Z) false test_world =
            (Return tt, revoked_until_world)) as Hrevoke by reflexivity.
  split; [exact Hrevoke|].
  exact (is_revoked_needs_a_time_for_until_records test_world
           revoked_until_world every_hour 3600%Z true Hrevoke).
Defined.

Lemma failed_execute_stores_nothing_witness :
  run blow_up (user test_world) = (Raise (UserException "blowed up"), ∅) /\
  result_store (invoker test_world) = Some empty_store /\
  results empty_store !! task_id blow_up = None /\
  (exists w',
      Invoker_execute (Command blow_up) test_world =
        (Raise (UserException "blowed up"), w') /\
      invoker w' = invoker test_world /\
      user w' = ∅ /\
      answer (fst (poll (AsyncData_init blow_up) w')) = Return (Data PyNone)).
Proof.
  assert (run blow_up (user test_world) =
            (Raise (UserException "blowed up"), ∅)) as Hrun by reflexivity.
  assert (result_store (invoker test_world) = Some empty_store) as Hrs
    by reflexivity.
  assert (results empty_store !! task_id blow_up = None) as Hkey by reflexivity.
  split; [exact Hrun|]. split; [exact Hrs|]. split; [exact Hkey|].
  exact (failed_execute_stores_nothing test_world empty_store blow_up
           (UserException "blowed up") ∅ Hrun Hrs Hkey).
Defined.

Lemma add_then_remove_round_trip_witness :
  CommandSchedule_is_pending (CommandSchedule_init "schedule") t1 = false /\
  task_id t1_again = task_id t1 /\
  (CommandSchedule_is_pending
     (CommandSchedule_add (CommandSchedule_init "schedule") t1) t1_again = true /\
   CommandSchedule_remove
     (CommandSchedule_add (CommandSchedule_init "schedule") t1) t1_again =
     CommandSchedule_init "schedule").
Proof.
  assert (CommandSchedule_is_pending (CommandSchedule_init "schedule") t1 = false)
    as Hp by reflexivity.
  assert (task_id t1_again = task_id t1) as Hid by reflexivity.
  split; [exact Hp|]. split; [exact Hid|].
  exact (add_then_remove_round_trip (CommandSchedule_init "schedule") t1 t1_again
           Hp Hid).
Defined.

Lemma should_run_is_monotone_witness :
  CommandSchedule_should_run t1_again (Some 2037%Z) 0 = true /\
  (2037 <= 2038)%Z /\
  CommandSchedule_should_run t1_again (Some 2038%Z) 2011 = true.
Proof.
  assert (CommandSchedule_should_run t1_again (Some 2037%Z) 0 = true) as Hdue
    by reflexivity.
  assert (2037 <= 2038)%Z as Hlater by lia.
  split; [exact Hdue|]. split; [exact Hlater|].
  exact (should_run_is_monotone t1_again 2037 2038 0 2011 Hdue Hlater).
Defined.

Lemma can_run_after_revoke_once_witness :
  Invoker_revoke every_hour None true test_world =
    (Return tt, revoked_once_world) /\
  (exists w2 w3,
      CommandSchedule_can_run every_hour (Some 0%Z) revoked_once_world =
        (Return false, w2) /\
      CommandSchedule_can_run every_hour (Some 0%Z) w2 = (Return true, w3)).
Proof.
  assert (Invoker_revoke every_hour None true test_world =
            (Return tt, revoked_once_world)) as Hrevoke by reflexivity.
  split; [exact Hrevoke|].
  exact (can_run_after_revoke_once test_world revoked_once_world every_hour None
           (Some 0%Z) (Some 0%Z) Hrevoke).
Defined.

End MoreInstances.
